(** * AgentCore deployment tutorial: deploy script, service handler, invocation client

  A shallow embedding of the three TypeScript programs of
  [typescript/01-tutorials/03-deployment/01-agentcore-deployment/src]:

  - [Deploy]: the deployment script (create-or-update of the runtime named
    [AGENT_NAME], then the readiness poll [waitForReady]);
  - [Server]: the Express application ([calculatorTool], [POST /invocations],
    [GET /ping]);
  - [InvokeAgent]: the command-line invocation client.

  Remote calls, timers and the console are effects: every program is a
  function from what its environment answers to the sequence of effects it
  performs and the way it ends. *)

From Stdlib Require Import String Ascii List ZArith Lia Bool.
From Stdlib Require Import Strings.Byte PrimFloat.
Import ListNotations.
Set Warnings "-register-all".
Local Open Scope list_scope.
Local Open Scope string_scope.

(** ** JavaScript values of type [string | undefined] *)

Module Js.

(** A value of type [string | undefined]: an unset environment variable, a
    missing argument, an absent response field. *)
Definition optstring := option string.

(** [!!x] at type [string | undefined]: [undefined] and the empty string are
    falsy, every other string is truthy. *)
Definition truthy (x : optstring) : bool :=
  match x with
  | Some EmptyString => false
  | Some _ => true
  | None => false
  end.

(** [`${x}`]: a template literal renders [undefined] by its name. *)
Definition template (x : optstring) : string :=
  match x with
  | Some s => s
  | None => "undefined"
  end.

(** [x || d] at type [string | undefined], with a string default: [x] when
    it is truthy (it is a string then), [d] otherwise. *)
Definition or_else (x : optstring) (d : string) : string :=
  if truthy x then template x else d.

(** Unset, or set to the empty string. *)
Definition absent (x : optstring) : Prop := x = None \/ x = Some EmptyString.

(** [x === 'lit'] for [x : string | undefined]. *)
Definition strict_eq (x : optstring) (lit : string) : bool :=
  match x with
  | Some s => String.eqb s lit
  | None => false
  end.

(** The line feed that ['\n'] denotes in a string literal. *)
Definition LF : string := String (ascii_of_nat 10) EmptyString.

(** The double quote, which a string literal in single quotes holds as it is. *)
Definition DQUOTE : string := String (ascii_of_nat 34) EmptyString.

(** [s.includes(sub)], as a proposition. *)
Definition includes (s sub : string) : Prop :=
  exists before after, s = before ++ sub ++ after.

(** A thrown value: an [Error] made by a script, or the exception a
    rejected [send] of an AWS SDK client carries. *)
Inductive thrown : Type :=
| Error (message : string)
| ServiceException (name message : string).

(** How a promise returned by a client's [send] settles. *)
Inductive reply (A : Type) : Type :=
| Resolves (a : A)
| Rejects (e : thrown).
Arguments Resolves {A} a.
Arguments Rejects {A} e.

End Js.

(** ** The deployment script, [deploy-agent.ts] *)

Module Deploy.
Import Js.

(** *** Data *)

(** What the control plane says about one runtime.  The four responses the
    script reads (an entry of [ListAgentRuntimes], and the responses of
    [GetAgentRuntime], [CreateAgentRuntime] and [UpdateAgentRuntime]) carry
    subsets of these fields; every field is optional in the SDK's types. *)
Record Runtime : Type := {
  agentRuntimeName : optstring;
  agentRuntimeId : optstring;
  agentRuntimeArn : optstring;
  status : optstring;
  failureReason : optstring
}.

(** The response of [ListAgentRuntimesCommand]: its [agentRuntimes] field. *)
Definition agentRuntimes := option (list Runtime).

(** The commands the script sends.  [containerUri] stands for
    [agentRuntimeArtifact.containerConfiguration.containerUri] and
    [networkMode] for [networkConfiguration.networkMode]. *)
Inductive command : Type :=
| ListAgentRuntimesCommand
| GetAgentRuntimeCommand (agentRuntimeId : optstring)
| CreateAgentRuntimeCommand
    (agentRuntimeName : string) (containerUri : string)
    (networkMode : string) (roleArn : optstring)
| UpdateAgentRuntimeCommand
    (agentRuntimeId : optstring) (containerUri : string)
    (roleArn : optstring) (networkMode : string).

(** The control plane as one run of the script meets it: its answer to the
    listing, to the create and to the update request, and its answers to
    the successive [GetAgentRuntime] requests, in order.  When [onGet] is
    used up the next request stays unanswered. *)
Record ControlPlane : Type := {
  onList : reply agentRuntimes;
  onCreate : reply Runtime;
  onUpdate : reply Runtime;
  onGet : list (reply Runtime)
}.

(** The control plane once it has given its next answer to a poll. *)
Definition answered (cp : ControlPlane) : ControlPlane :=
  {| onList := onList cp; onCreate := onCreate cp; onUpdate := onUpdate cp;
     onGet := tl (onGet cp) |}.

(** The effects of a run, in the order they happen. *)
Inductive event : Type :=
| Sent (c : command)
| Timeout (ms : Z)
| ConsoleLog (line : string)
| ConsoleError (label : string) (e : thrown)
| ProcessExit (code : Z).

(** How a computation ends: it returns, it throws, it ends the process, or
    it waits for ever on an answer that does not come. *)
Inductive outcome (A : Type) : Type :=
| Returned (a : A)
| Threw (e : thrown)
| Exited (code : Z)
| Pending.
Arguments Returned {A} a.
Arguments Threw {A} e.
Arguments Exited {A} code.
Arguments Pending {A}.

(** *** The monad of the script: control-plane state, exceptions, a trace *)

Definition M (A : Type) : Type :=
  ControlPlane -> outcome A * ControlPlane * list event.

Definition ret {A} (a : A) : M A := fun cp => (Returned a, cp, []).

Definition bind {A B} (m : M A) (k : A -> M B) : M B :=
  fun cp =>
    match m cp with
    | (Returned a, cp1, t1) =>
        match k a cp1 with
        | (o, cp2, t2) => (o, cp2, (t1 ++ t2)%list)
        end
    | (Threw e, cp1, t1) => (Threw e, cp1, t1)
    | (Exited c, cp1, t1) => (Exited c, cp1, t1)
    | (Pending, cp1, t1) => (Pending, cp1, t1)
    end.

Declare Scope js_scope.
Delimit Scope js_scope with js.
Notation "x <- m ;; k" := (bind m (fun x => k))
  (at level 61, m at next level, right associativity) : js_scope.
Notation "m ;; k" := (bind m (fun _ => k))
  (at level 61, right associativity) : js_scope.
Local Open Scope js_scope.

Definition throw {A} (e : thrown) : M A := fun cp => (Threw e, cp, []).

(** [try { m } catch (error) { h error }] *)
Definition try_catch {A} (m : M A) (h : thrown -> M A) : M A :=
  fun cp =>
    match m cp with
    | (Threw e, cp1, t1) =>
        match h e cp1 with
        | (o, cp2, t2) => (o, cp2, (t1 ++ t2)%list)
        end
    | r => r
    end.

Definition emit (e : event) : M unit := fun cp => (Returned tt, cp, [e]).

Definition console_log (line : string) : M unit := emit (ConsoleLog line).
Definition console_error (label : string) (e : thrown) : M unit :=
  emit (ConsoleError label e).

(** [await new Promise(r => setTimeout(r, ms))] *)
Definition sleep (ms : Z) : M unit := emit (Timeout ms).

(** [process.exit(code)]: nothing runs after it. *)
Definition process_exit {A} (code : Z) : M A :=
  fun cp => (Exited code, cp, [ProcessExit code]).

Definition settle {A} (r : reply A) : outcome A :=
  match r with
  | Resolves a => Returned a
  | Rejects e => Threw e
  end.

(** [await agentCoreClient.send(new ListAgentRuntimesCommand({}))] *)
Definition send_list : M agentRuntimes :=
  fun cp => (settle (onList cp), cp, [Sent ListAgentRuntimesCommand]).

(** [await agentCoreClient.send(new CreateAgentRuntimeCommand({...}))] *)
Definition send_create (agentRuntimeName containerUri networkMode : string)
    (roleArn : optstring) : M Runtime :=
  fun cp =>
    (settle (onCreate cp), cp,
     [Sent (CreateAgentRuntimeCommand agentRuntimeName containerUri networkMode roleArn)]).

(** [await agentCoreClient.send(new UpdateAgentRuntimeCommand({...}))] *)
Definition send_update (agentRuntimeId : optstring) (containerUri : string)
    (roleArn : optstring) (networkMode : string) : M Runtime :=
  fun cp =>
    (settle (onUpdate cp), cp,
     [Sent (UpdateAgentRuntimeCommand agentRuntimeId containerUri roleArn networkMode)]).

(** [await agentCoreClient.send(new GetAgentRuntimeCommand({ agentRuntimeId }))]:
    the request goes out, and the next answer of the control plane settles
    it; with no answer left the [await] never resumes. *)
Definition send_get (agentRuntimeId : optstring) : M Runtime :=
  fun cp =>
    match onGet cp with
    | [] => (Pending, cp, [Sent (GetAgentRuntimeCommand agentRuntimeId)])
    | r :: _ => (settle r, answered cp, [Sent (GetAgentRuntimeCommand agentRuntimeId)])
    end.

(** *** Configuration *)

(** [process.env], as far as the script reads it. *)
Record Env : Type := {
  AWS_REGION : optstring;
  env_ROLE_ARN : optstring;
  env_REPO_URI : optstring
}.

Definition REGION (env : Env) : string := or_else (AWS_REGION env) "us-east-1".
Definition ROLE_ARN (env : Env) : optstring := env_ROLE_ARN env.
Definition REPO_URI (env : Env) : optstring := env_REPO_URI env.
Definition AGENT_NAME : string := "agentcore_deployment".

(** *** [findExistingAgent] *)

(** [(response.agentRuntimes || []).find((a) => a.agentRuntimeName === AGENT_NAME)] *)
Definition find_agent (response : agentRuntimes) : option Runtime :=
  find (fun a => strict_eq (agentRuntimeName a) AGENT_NAME)
       (match response with Some l => l | None => [] end).

Definition findExistingAgent : M (option Runtime) :=
  response <- send_list ;;
  ret (find_agent response).

(** *** [waitForReady] *)

Definition failed (status : optstring) : bool :=
  strict_eq status "CREATE_FAILED" || strict_eq status "UPDATE_FAILED".

Definition in_progress (status : optstring) : bool :=
  strict_eq status "CREATING" || strict_eq status "UPDATING".

(** The [do ... while] loop.  Every round sends one [GetAgentRuntime]
    request and so uses up one answer of the control plane; [n] bounds the
    rounds, and [waitForReady] starts it above the number of answers there
    are, so the bound is never what stops the loop. *)
Fixpoint waitForReady_loop (n : nat) (agentRuntimeId : optstring) : M optstring :=
  match n with
  | O => fun cp => (Pending, cp, [])
  | S n' =>
      sleep 10000 ;;
      res <- send_get agentRuntimeId ;;
      let status := status res in
      console_log ("  Status: " ++ template status) ;;
      if failed status
      then throw (Error ("Deployment failed: " ++ or_else (failureReason res) "Unknown"))
      else if in_progress status
      then waitForReady_loop n' agentRuntimeId
      else ret status
  end.

Definition waitForReady (agentRuntimeId : optstring) : M optstring :=
  fun cp => waitForReady_loop (S (length (onGet cp))) agentRuntimeId cp.

(** *** The main deployment flow *)

Definition missing_variables : string :=
  "Missing required environment variables. Run setup-prerequisites.sh and export ROLE_ARN and REPO_URI.".

(** The body of the [try] block. *)
Definition deploy (env : Env) : M unit :=
  if negb (truthy (ROLE_ARN env)) || negb (truthy (REPO_URI env))
  then throw (Error missing_variables)
  else
    console_log ("Role ARN: " ++ template (ROLE_ARN env)) ;;
    console_log ("Repository URI: " ++ template (REPO_URI env)) ;;
    existingAgent <- findExistingAgent ;;
    match existingAgent with
    | Some existingAgent =>
        console_log (LF ++ "Updating existing AgentCore Runtime: "
                        ++ template (agentRuntimeId existingAgent)) ;;
        response <- send_update (agentRuntimeId existingAgent)
                      (template (REPO_URI env) ++ ":latest") (ROLE_ARN env) "PUBLIC" ;;
        console_log "Waiting for runtime to be ready..." ;;
        _ <- waitForReady (agentRuntimeId response) ;;
        console_log (LF ++ "✓ Agent Runtime updated and READY!") ;;
        console_log ("Agent Runtime ARN: " ++ template (agentRuntimeArn response)) ;;
        console_log (LF ++ "To invoke:") ;;
        console_log ("AGENT_RUNTIME_ARN=" ++ template (agentRuntimeArn response)
                       ++ " npm run invoke " ++ DQUOTE ++ "your prompt" ++ DQUOTE)
    | None =>
        console_log (LF ++ "Creating AgentCore Runtime...") ;;
        response <- send_create AGENT_NAME
                      (template (REPO_URI env) ++ ":latest") "PUBLIC" (ROLE_ARN env) ;;
        console_log "Waiting for runtime to be ready..." ;;
        _ <- waitForReady (agentRuntimeId response) ;;
        console_log (LF ++ "✓ Agent Runtime created and READY!") ;;
        console_log ("Agent Runtime ARN: " ++ template (agentRuntimeArn response)) ;;
        console_log (LF ++ "To invoke:") ;;
        console_log ("AGENT_RUNTIME_ARN=" ++ template (agentRuntimeArn response)
                       ++ " npm run invoke " ++ DQUOTE ++ "your prompt" ++ DQUOTE)
    end.

(** The script: the [try] block and its [catch]. *)
Definition main (env : Env) : M unit :=
  try_catch (deploy env)
    (fun error => console_error "Deployment failed:" error ;; process_exit 1).

(** *** Reading a run *)

Definition result {A} (run : outcome A * ControlPlane * list event) : outcome A :=
  fst (fst run).
Definition remaining {A} (run : outcome A * ControlPlane * list event) : ControlPlane :=
  snd (fst run).
Definition trace {A} (run : outcome A * ControlPlane * list event) : list event :=
  snd run.

(** The commands sent in a trace, in order. *)
Definition sent (t : list event) : list command :=
  flat_map (fun e => match e with Sent c => [c] | _ => [] end) t.

Definition is_create (c : command) : bool :=
  match c with CreateAgentRuntimeCommand _ _ _ _ => true | _ => false end.
Definition is_update (c : command) : bool :=
  match c with UpdateAgentRuntimeCommand _ _ _ _ => true | _ => false end.
Definition is_get (c : command) : bool :=
  match c with GetAgentRuntimeCommand _ => true | _ => false end.

(** The calls of one kind made in a trace. *)
Definition calls (kind : command -> bool) (t : list event) : list command :=
  filter kind (sent t).

(** What a trace wrote to the console. *)
Definition console (t : list event) : list event :=
  filter (fun e => match e with ConsoleLog _ | ConsoleError _ _ => true | _ => false end) t.

(** What one round of [waitForReady] sends and prints, given the status it
    reads. *)
Definition round (agentRuntimeId status : optstring) : list event :=
  [Timeout 10000; Sent (GetAgentRuntimeCommand agentRuntimeId);
   ConsoleLog ("  Status: " ++ template status)].

(** The control plane [cp] with another answer to the listing. *)
Definition with_listing (cp : ControlPlane) (response : agentRuntimes) : ControlPlane :=
  {| onList := Resolves response; onCreate := onCreate cp; onUpdate := onUpdate cp;
     onGet := onGet cp |}.

(** The names a listing holds. *)
Definition names (response : agentRuntimes) : list optstring :=
  map agentRuntimeName (match response with Some l => l | None => [] end).

End Deploy.

(** ** The Express application, [agent.ts] *)

Module Server.

(** *** Values *)

(** A JavaScript value as [req.body] can hold one: the string that
    [express.text] delivers, a value parsed by [express.json], or
    [undefined] when no parser has set it. *)
Inductive value : Type :=
| Undefined
| Null
| Boolean (b : bool)
| Number (x : float)
| Str (s : string)
| Array (items : list value)
| Object (properties : list (string * value)).

(** [x !== 0] on numbers: IEEE 754 comparison, under which [-0] equals [0]
    and [NaN] differs from everything. *)
Definition number_neq_zero (x : float) : bool := negb (PrimFloat.eqb x 0%float).

(** [!!v]: [undefined], [null], [false], [0], [-0], [NaN] and the empty string
    are falsy; everything else, every array and object included, is truthy. *)
Definition truthy (v : value) : bool :=
  match v with
  | Undefined | Null => false
  | Boolean b => b
  | Number x => number_neq_zero x && PrimFloat.eqb x x
  | Str s => negb (String.eqb s EmptyString)
  | Array _ | Object _ => true
  end.

Fixpoint own_property (properties : list (string * value)) (key : string) : value :=
  match properties with
  | [] => Undefined
  | (k, v) :: rest => if String.eqb k key then v else own_property rest key
  end.

(** [v.key] for a [key] that names no built-in property (as [input] and
    [prompt] do not): an object's own property, [undefined] on any other
    value that can be read from, and a [TypeError] (here [None]) on
    [undefined] and [null]. *)
Definition get (v : value) (key : string) : option value :=
  match v with
  | Undefined | Null => None
  | Object properties => Some (own_property properties key)
  | Boolean _ | Number _ | Str _ | Array _ => Some Undefined
  end.

(** [v?.key] *)
Definition get_optional (v : value) (key : string) : option value :=
  match v with
  | Undefined | Null => Some Undefined
  | _ => get v key
  end.

(** How a [TypeError] message names the value that could not be read from. *)
Definition render (v : value) : string :=
  match v with
  | Null => "null"
  | _ => "undefined"
  end.

(** The message of the [TypeError] that reading [key] from [undefined] or
    [null] raises. *)
Definition cannot_read (v : value) (key : string) : string :=
  "Cannot read properties of " ++ render v ++ " (reading '" ++ key ++ "')".

(** *** The tools *)

Inductive operation : Type := Add | Subtract | Multiply | Divide.

(** What the callback returns: a number, or the refusal string. *)
Inductive tool_result : Type :=
| Num (x : float)
| Text (s : string).

(** An arithmetic operation the callback carries out on its operands. *)
Inductive arithmetic : Type :=
| Plus (a b : float)
| Minus (a b : float)
| Times (a b : float)
| Over (a b : float).

Definition compute (op : arithmetic) : float :=
  match op with
  | Plus a b => (a + b)%float
  | Minus a b => (a - b)%float
  | Times a b => (a * b)%float
  | Over a b => (a / b)%float
  end.

(** Carry an operation out: its value, and the record that it was done. *)
Definition perform (op : arithmetic) : tool_result * list arithmetic :=
  (Num (compute op), [op]).

(** The callback of [weatherTool]. *)
Definition weatherTool : tool_result := Text "sunny".

(** The callback of [calculatorTool], with the arithmetic it performs. *)
Definition calculatorTool (op : operation) (a b : float) : tool_result * list arithmetic :=
  match op with
  | Add => perform (Plus a b)
  | Subtract => perform (Minus a b)
  | Multiply => perform (Times a b)
  | Divide => if number_neq_zero b then perform (Over a b)
              else (Text "Cannot divide by zero", [])
  end.

(** *** The endpoints *)

(** What a rejected [agent.invoke] throws: an [Error], or any other value,
    kept as the string [String(error)] makes of it. *)
Inductive thrown : Type :=
| Error (message : string)
| NotAnError (rendered : string).

(** How [agent.invoke(message)] ends: with a result, kept as its
    [toString()], or by throwing. *)
Inductive invocation : Type :=
| Answers (text : string)
| Fails (e : thrown).

Definition Agent : Type := value -> invocation.

Record Response : Type := {
  statusCode : Z;
  contentType : option string;
  body : string
}.

(** [res.send(text)] with the status and type set before it; the status is
    200 and the type is Express's default unless the handler sets them. *)
Definition send (code : Z) (type : option string) (text : string) : Response :=
  {| statusCode := code; contentType := type; body := text |}.

(** [typeof req.body === 'string' ? req.body : req.body.input?.prompt];
    [None] when the property access throws. *)
Definition userMessage (req_body : value) : option value :=
  match req_body with
  | Str s => Some (Str s)
  | _ =>
      match get req_body "input" with
      | Some input => get_optional input "prompt"
      | None => None
      end
  end.

(** [error instanceof Error ? error.message : String(error)] *)
Definition message_of (e : thrown) : string :=
  match e with
  | Error message => message
  | NotAnError rendered => rendered
  end.

(** The handler of [POST /invocations]: the response it sends, and the
    arguments of every [agent.invoke] call it makes. *)
Definition invocations (agent : Agent) (req_body : value) : Response * list value :=
  match userMessage req_body with
  | None =>
      (send 500 None ("Error: " ++ cannot_read req_body "input"), [])
  | Some userMessage =>
      if negb (truthy userMessage)
      then (send 400 None "No prompt provided", [])
      else
        match agent userMessage with
        | Answers text => (send 200 (Some "text/plain") text, [userMessage])
        | Fails e => (send 500 None ("Error: " ++ message_of e), [userMessage])
        end
  end.

(** The handler of [GET /ping]. *)
Definition ping : Response :=
  send 200 (Some "application/json") ("{" ++ Js.DQUOTE ++ "status" ++ Js.DQUOTE ++ ":"
                                        ++ Js.DQUOTE ++ "Healthy" ++ Js.DQUOTE ++ "}").

Definition PORT : Z := 8080.

(** *** What counts as a prompt, in the specification's words

    These definitions follow the specification, not the handler: they say
    of a body whether it yields a prompt, for the handler to be compared
    with. *)

(** The [input.prompt] field of a body that is an object; [undefined] when
    the body has no [input] object or that object has no [prompt]. *)
Definition prompt_of (req_body : value) : value :=
  match req_body with
  | Object properties =>
      match own_property properties "input" with
      | Object input => own_property input "prompt"
      | _ => Undefined
      end
  | _ => Undefined
  end.

(** A body yields a prompt when it is a raw string that is not empty, or an
    object whose [input.prompt] field is not empty; [nonempty] says which
    field values are not empty. *)
Definition yields_prompt (nonempty : value -> bool) (req_body : value) : bool :=
  match req_body with
  | Str s => negb (String.eqb s EmptyString)
  | Object _ => nonempty (prompt_of req_body)
  | _ => false
  end.

(** An empty field, as the word reads: a missing or null value, the empty
    string, the empty array or the empty object. *)
Definition empty (v : value) : bool :=
  match v with
  | Undefined | Null | Str EmptyString | Array [] | Object [] => true
  | _ => false
  end.

Definition nonempty (v : value) : bool := negb (empty v).

(** A body as the two body parsers deliver it: the string of
    [express.text], or the object or array that [express.json] parsed
    (where no parser ran, Express 4 leaves the empty object). *)
Definition delivered (req_body : value) : Prop :=
  match req_body with
  | Str _ | Array _ | Object _ => True
  | _ => False
  end.

End Server.

(** ** The invocation client, [invoke-agent.ts] *)

Module InvokeAgent.
Import Js.

(** [process.env], as far as the client reads it. *)
Record Env : Type := {
  env_AGENT_RUNTIME_ARN : optstring;
  AWS_REGION : optstring
}.

Definition AGENT_RUNTIME_ARN (env : Env) : optstring := env_AGENT_RUNTIME_ARN env.
Definition REGION (env : Env) : string := or_else (AWS_REGION env) "us-east-1".

(** [process.argv[2] || 'What is the weather now?'] *)
Definition PROMPT (argv : list string) : string :=
  or_else (nth_error argv 2) "What is the weather now?".

(** The operating system's random source as one process reads it: the
    byte it hands out at each position. *)
Definition entropy : Type := nat -> byte.

(** [randomBytes(size)] *)
Definition randomBytes (size : nat) (os : entropy) : list byte :=
  map os (seq 0 size).

(** The digits of the hexadecimal encoding, in the order of their values. *)
Definition hex_digits : string := "0123456789abcdef".

(** The digit of a nibble. *)
Definition hex_digit (n : N) : ascii :=
  match String.get (N.to_nat n) hex_digits with
  | Some digit => digit
  | None => "f"%char
  end.

(** [buffer.toString('hex')]: two lower-case digits a byte, high nibble first. *)
Fixpoint toString_hex (buffer : list byte) : string :=
  match buffer with
  | [] => EmptyString
  | b :: rest =>
      String (hex_digit (Byte.to_N b / 16))
        (String (hex_digit (Byte.to_N b mod 16)) (toString_hex rest))
  end.

Fixpoint position (c : ascii) (digits : string) (from : N) : option N :=
  match digits with
  | EmptyString => None
  | String digit rest =>
      if Ascii.eqb c digit then Some from else position c rest (N.succ from)
  end.

(** The value of a digit. *)
Definition hex_value (c : ascii) : option N := position c hex_digits 0.

(** [Buffer.from(text, 'hex')] on the strings [toString_hex] writes: the
    bytes back from their digits. *)
Fixpoint from_hex (text : string) : option (list byte) :=
  match text with
  | EmptyString => Some []
  | String hi (String lo rest) =>
      match hex_value hi, hex_value lo, from_hex rest with
      | Some h, Some l, Some bytes =>
          match Byte.of_N (16 * h + l) with
          | Some b => Some (b :: bytes)
          | None => None
          end
      | _, _, _ => None
      end
  | String _ EmptyString => None
  end.

(** [new TextEncoder().encode(text)]: a string is held as its UTF-8 bytes. *)
Definition TextEncoder_encode (text : string) : list byte :=
  list_byte_of_string text.

Record InvokeAgentRuntimeCommand : Type := {
  agentRuntimeArn : optstring;
  runtimeSessionId : string;
  payload : list byte;
  qualifier : string
}.

(** How [client.send(command)] followed by
    [response.response?.transformToString()] ends: with the body text
    ([undefined] when the response has no body), or by throwing. *)
Definition Service : Type := InvokeAgentRuntimeCommand -> reply optstring.

(** The effects of a run of the client. *)
Inductive event : Type :=
| ConsoleErrorLine (line : string)
| ConsoleError (label : string) (e : thrown)
| ConsoleLog (label : string) (v : optstring)
| Sent (c : InvokeAgentRuntimeCommand)
| ProcessExit (code : Z).

Definition sessionId (os : entropy) : string :=
  toString_hex (randomBytes 17 os).

Definition command (env : Env) (argv : list string) (os : entropy) : InvokeAgentRuntimeCommand :=
  {| agentRuntimeArn := AGENT_RUNTIME_ARN env;
     runtimeSessionId := sessionId os;
     payload := TextEncoder_encode (PROMPT argv);
     qualifier := "DEFAULT" |}.

(** One run of the client: its effects, in order. *)
Definition main (env : Env) (argv : list string) (os : entropy) (service : Service)
  : list event :=
  if negb (truthy (AGENT_RUNTIME_ARN env))
  then [ConsoleErrorLine "AGENT_RUNTIME_ARN environment variable is required";
        ProcessExit 1]
  else
    Sent (command env argv os) ::
    match service (command env argv os) with
    | Resolves responseBody => [ConsoleLog "Agent Response:" responseBody]
    | Rejects error => [ConsoleError "Invocation failed:" error; ProcessExit 1]
    end.

(** The commands a run sent. *)
Definition sent (run : list event) : list InvokeAgentRuntimeCommand :=
  flat_map (fun e => match e with Sent c => [c] | _ => [] end) run.

End InvokeAgent.

(** ** Concrete runs *)

Module Scenario.
Import Js Deploy.

Definition env : Env :=
  {| Deploy.AWS_REGION := None;
     env_ROLE_ARN := Some "arn:aws:iam::123456789012:role/AgentCoreRuntimeRole";
     env_REPO_URI := Some "123456789012.dkr.ecr.us-east-1.amazonaws.com/agentcore-deployment" |}.

(** The environment with [REPO_URI] exported as the empty string. *)
Definition env_without_repo : Env :=
  {| Deploy.AWS_REGION := None;
     env_ROLE_ARN := env_ROLE_ARN env;
     env_REPO_URI := Some EmptyString |}.

(** A [GetAgentRuntime] response that carries a status and nothing else the
    script reads. *)
Definition reports (status : string) : Runtime :=
  {| agentRuntimeName := Some AGENT_NAME;
     agentRuntimeId := Some "agentcore_deployment-Zk3RNy1qLp";
     agentRuntimeArn := None;
     status := Some status;
     failureReason := None |}.

(** The same, with the runtime's ARN. *)
Definition reports_with_arn (status arn : string) : Runtime :=
  {| agentRuntimeName := Some AGENT_NAME;
     agentRuntimeId := Some "agentcore_deployment-Zk3RNy1qLp";
     agentRuntimeArn := Some arn;
     status := Some status;
     failureReason := None |}.

(** A failure with the reason the control plane gives. *)
Definition fails_with (status reason : string) : Runtime :=
  {| agentRuntimeName := Some AGENT_NAME;
     agentRuntimeId := Some "agentcore_deployment-Zk3RNy1qLp";
     agentRuntimeArn := None;
     status := Some status;
     failureReason := Some reason |}.

(** An entry of a listing. *)
Definition entry (name id : string) : Runtime :=
  {| agentRuntimeName := Some name;
     agentRuntimeId := Some id;
     agentRuntimeArn := None;
     status := Some "READY";
     failureReason := None |}.

(** The response to a create or an update request. *)
Definition accepted (status : string) : Runtime :=
  {| agentRuntimeName := None;
     agentRuntimeId := Some "agentcore_deployment-Zk3RNy1qLp";
     agentRuntimeArn :=
       Some "arn:aws:bedrock-agentcore:us-east-1:123456789012:runtime/agentcore_deployment-Zk3RNy1qLp";
     status := Some status;
     failureReason := None |}.

(** A control plane that lists [listing], accepts a create or an update, and
    answers the polls with [polls]. *)
Definition plane (listing : list Runtime) (polls : list Runtime) : ControlPlane :=
  {| onList := Resolves (Some listing);
     onCreate := Resolves (accepted "CREATING");
     onUpdate := Resolves (accepted "UPDATING");
     onGet := map Resolves polls |}.

Definition the_id : optstring := Some "agentcore_deployment-Zk3RNy1qLp".

(** The client's environment, with the ARN a deployment printed. *)
Definition client_env : InvokeAgent.Env :=
  {| InvokeAgent.env_AGENT_RUNTIME_ARN :=
       Some "arn:aws:bedrock-agentcore:us-east-1:123456789012:runtime/agentcore_deployment-Zk3RNy1qLp";
     InvokeAgent.AWS_REGION := None |}.

(** [process.argv] of [npm run invoke] without and with a prompt. *)
Definition argv_bare : list string := ["/usr/bin/node"; "/app/src/invoke-agent.ts"].
Definition argv_with (prompt : string) : list string :=
  ["/usr/bin/node"; "/app/src/invoke-agent.ts"; prompt].

(** Two random sources: one hands out [0x00] everywhere, the other [0xff]
    at position 16 and [0x00] elsewhere. *)
Definition zeros : InvokeAgent.entropy := fun _ => x00.
Definition zeros_but_last : InvokeAgent.entropy :=
  fun i => if Nat.eqb i 16 then xff else x00.


(** A deployed runtime that answers every invocation with the weather. *)
Definition sunny : InvokeAgent.Service := fun _ => Resolves (Some "sunny").

End Scenario.

(** ** The image build script, [build-image.sh] *)

Module BuildImage.
Import Js.

(** [${x:-d}]: the default stands in for an unset and for an empty
    variable. *)
Definition default_to (x : optstring) (d : string) : string := or_else x d.

(** The environment of the script, and what [aws sts get-caller-identity]
    printed. *)
Record Env : Type := {
  env_AWS_REGION : optstring;
  env_ECR_REPO_NAME : optstring
}.

Definition AWS_REGION (env : Env) : string := default_to (env_AWS_REGION env) "us-east-1".
Definition ECR_REPO_NAME (env : Env) : string :=
  default_to (env_ECR_REPO_NAME env) "agentcore-deployment".

(** ["$AWS_ACCOUNT_ID.dkr.ecr.$AWS_REGION.amazonaws.com/$ECR_REPO_NAME"] *)
Definition REPO_URI (env : Env) (AWS_ACCOUNT_ID : string) : string :=
  AWS_ACCOUNT_ID ++ ".dkr.ecr." ++ AWS_REGION env ++ ".amazonaws.com/" ++ ECR_REPO_NAME env.

(** [${s%%/*}]: [s] without its longest suffix that starts with a slash,
    which is [s] up to its first slash, and [s] itself when it has none. *)
Fixpoint remove_from_slash (s : string) : string :=
  match s with
  | EmptyString => EmptyString
  | String c rest =>
      if Ascii.eqb c "/" then EmptyString else String c (remove_from_slash rest)
  end.

(** Whether a string holds a slash. *)
Fixpoint has_slash (s : string) : bool :=
  match s with
  | EmptyString => false
  | String c rest => Ascii.eqb c "/" || has_slash rest
  end.

(** The registry [docker login] is given: [${REPO_URI%%/*}]. *)
Definition login_registry (env : Env) (AWS_ACCOUNT_ID : string) : string :=
  remove_from_slash (REPO_URI env AWS_ACCOUNT_ID).

(** What [aws codebuild batch-get-builds ... --output text] gives one round
    of the wait: the text it prints, or the status it fails with. *)
Inductive build_reply : Type :=
| Prints (STATUS : string)
| FailsWith (code : Z).

Inductive action : Type :=
| BatchGetBuilds
| Echo (line : string)
| Sleep (seconds : Z).

(** How the wait ends: the loop is left by [break], the script exits, or
    the loop is still going when the replies are used up. *)
Inductive ending : Type :=
| Break
| Exit (code : Z)
| Waiting.

Definition build_failed (STATUS : string) : bool :=
  String.eqb STATUS "FAILED" || String.eqb STATUS "FAULT" || String.eqb STATUS "STOPPED".

(** The [while true] loop that waits for the build, under [set -e]: a
    failing [aws] command in the assignment ends the script with its
    status. *)
Fixpoint wait_for_build (replies : list build_reply) : ending * list action :=
  match replies with
  | [] => (Waiting, [BatchGetBuilds])
  | FailsWith code :: _ => (Exit code, [BatchGetBuilds])
  | Prints STATUS :: rest =>
      if String.eqb STATUS "SUCCEEDED"
      then (Break, [BatchGetBuilds; Echo "Build succeeded!"])
      else if build_failed STATUS
      then (Exit 1, [BatchGetBuilds;
                     Echo ("Build failed with status: " ++ STATUS);
                     Echo "Check CloudWatch logs for details"])
      else
        let (end_, actions) := wait_for_build rest in
        (end_, (BatchGetBuilds :: Echo ("  Status: " ++ STATUS ++ "...") :: Sleep 15
                  :: actions)%list)
  end.

(** A status that ends the wait. *)
Definition build_settled (STATUS : string) : bool :=
  String.eqb STATUS "SUCCEEDED" || build_failed STATUS.

(** The queries and the sleeps among the actions. *)
Definition queries (actions : list action) : nat :=
  length (filter (fun a => match a with BatchGetBuilds => true | _ => false end) actions).
Definition naps (actions : list action) : list action :=
  filter (fun a => match a with Sleep _ => true | _ => false end) actions.

End BuildImage.

(** ** More ways to read a run of the deployment script *)

Module DeployReading.
Import Js Deploy.

(** The timers a trace set, in order. *)
Definition sleeps (t : list event) : list event :=
  filter (fun e => match e with Timeout _ => true | _ => false end) t.

(** One more request is out than was answered exactly when the run waits. *)
Definition unanswered {A} (o : outcome A) : nat :=
  match o with
  | Pending => 1
  | _ => 0
  end.

(** The lines the script prints once the runtime is ready; [done] is
    [created] or [updated]. *)
Definition success_lines (done : string) (response : Runtime) : list event :=
  [ConsoleLog (LF ++ "✓ Agent Runtime " ++ done ++ " and READY!");
   ConsoleLog ("Agent Runtime ARN: " ++ template (agentRuntimeArn response));
   ConsoleLog (LF ++ "To invoke:");
   ConsoleLog ("AGENT_RUNTIME_ARN=" ++ template (agentRuntimeArn response)
                 ++ " npm run invoke " ++ DQUOTE ++ "your prompt" ++ DQUOTE)].

(** The request that creates the runtime, and the one that updates
    [existing], as the script builds them from its environment. *)
Definition create_request (env : Env) : command :=
  CreateAgentRuntimeCommand AGENT_NAME (template (REPO_URI env) ++ ":latest")
    "PUBLIC" (ROLE_ARN env).
Definition update_request (env : Env) (existing : Runtime) : command :=
  UpdateAgentRuntimeCommand (agentRuntimeId existing)
    (template (REPO_URI env) ++ ":latest") (ROLE_ARN env) "PUBLIC".

End DeployReading.

(** * Properties *)

(** ** Strings *)

Module JsFacts.
Import Js.

Lemma append_empty (s : string) : s ++ EmptyString = s.
Proof. induction s as [|c s IH]; simpl; [reflexivity | now rewrite IH]. Qed.

Lemma includes_suffix (pre sub : string) : includes (pre ++ sub) sub.
Proof. exists pre, EmptyString. now rewrite append_empty. Qed.

Lemma truthy_or_else (x : optstring) (d : string) :
  truthy x = true -> or_else x d = template x.
Proof. unfold or_else. now intros ->. Qed.

Lemma falsy_or_else (x : optstring) (d : string) :
  truthy x = false -> or_else x d = d.
Proof. unfold or_else. now intros ->. Qed.

Lemma truthy_false (x : optstring) : truthy x = false <-> absent x.
Proof.
  unfold absent. destruct x as [[|c s]|]; simpl; split; intros H;
    try reflexivity; try discriminate; auto; destruct H; discriminate.
Qed.

Lemma strict_eq_true (x : optstring) (lit : string) :
  strict_eq x lit = true <-> x = Some lit.
Proof.
  destruct x as [s|]; simpl; [rewrite String.eqb_eq|]; split; congruence.
Qed.

Lemma includes_empty (s : string) : includes s EmptyString.
Proof. now exists EmptyString, s. Qed.

(** The message built from [x || d] holds [x] when [x] is a string, and
    [d] when [x] is [undefined]. *)
Lemma includes_or_else (pre : string) (x : optstring) (d reason : string) :
  x = Some reason -> includes (pre ++ or_else x d) reason.
Proof.
  intros ->. destruct reason as [|c reason].
  - apply includes_empty.
  - apply includes_suffix.
Qed.

End JsFacts.

(** ** The deployment script *)

Module DeployFacts.
Import Js JsFacts Deploy.
Local Open Scope js_scope.

(** *** The poll loop *)

Lemma waitForReady_loop_S (n : nat) (agentRuntimeId : optstring) :
  waitForReady_loop (S n) agentRuntimeId =
  (sleep 10000 ;;
   res <- send_get agentRuntimeId ;;
   console_log ("  Status: " ++ template (status res)) ;;
   if failed (status res)
   then throw (Error ("Deployment failed: " ++ or_else (failureReason res) "Unknown"))
   else if in_progress (status res)
   then waitForReady_loop n agentRuntimeId
   else ret (status res)).
Proof. reflexivity. Qed.

(** One round of [waitForReady], as the source writes it: the loop goes
    round again through [waitForReady] itself. *)
Lemma waitForReady_round (agentRuntimeId : optstring) (cp : ControlPlane) :
  waitForReady agentRuntimeId cp =
  (sleep 10000 ;;
   res <- send_get agentRuntimeId ;;
   console_log ("  Status: " ++ template (status res)) ;;
   if failed (status res)
   then throw (Error ("Deployment failed: " ++ or_else (failureReason res) "Unknown"))
   else if in_progress (status res)
   then waitForReady agentRuntimeId
   else ret (status res)) cp.
Proof.
  unfold waitForReady at 1. rewrite waitForReady_loop_S.
  remember (waitForReady_loop (length (onGet cp)) agentRuntimeId) as L eqn:HL.
  remember (waitForReady agentRuntimeId) as W eqn:HW.
  unfold bind, sleep, emit, send_get, console_log.
  destruct (onGet cp) as [|[res|e] rest] eqn:Hget; cbn; try reflexivity.
  destruct (failed (status res)); [reflexivity|].
  destruct (in_progress (status res)); [|reflexivity].
  replace (L (answered cp)) with (W (answered cp)); [reflexivity|].
  subst L W. unfold waitForReady. cbn [answered onGet]. now rewrite Hget.
Qed.

Lemma onGet_answered (cp : ControlPlane) (r : reply Runtime) (rest : list (reply Runtime)) :
  onGet cp = r :: rest -> onGet (answered cp) = rest.
Proof. intros H. cbn. now rewrite H. Qed.

(** A status is never both a failure and in progress. *)
Lemma failed_not_in_progress (s : optstring) :
  in_progress s = true -> failed s = false.
Proof.
  unfold in_progress, failed. rewrite orb_true_iff, !strict_eq_true.
  intros [-> | ->]; reflexivity.
Qed.

Section Rounds.
Variable agentRuntimeId : optstring.
Variable cp : ControlPlane.

Lemma poll_unanswered :
  onGet cp = [] ->
  waitForReady agentRuntimeId cp =
  (Pending, cp, [Timeout 10000; Sent (GetAgentRuntimeCommand agentRuntimeId)]).
Proof.
  intros H. rewrite waitForReady_round.
  unfold bind, sleep, emit, send_get. now rewrite H.
Qed.

Lemma poll_rejected (e : thrown) (rest : list (reply Runtime)) :
  onGet cp = Rejects e :: rest ->
  waitForReady agentRuntimeId cp =
  (Threw e, answered cp, [Timeout 10000; Sent (GetAgentRuntimeCommand agentRuntimeId)]).
Proof.
  intros H. rewrite waitForReady_round.
  unfold bind, sleep, emit, send_get. now rewrite H.
Qed.

Lemma poll_failed (res : Runtime) (rest : list (reply Runtime)) :
  onGet cp = Resolves res :: rest ->
  failed (status res) = true ->
  waitForReady agentRuntimeId cp =
  (Threw (Error ("Deployment failed: " ++ or_else (failureReason res) "Unknown")),
   answered cp, round agentRuntimeId (status res)).
Proof.
  intros H Hf. rewrite waitForReady_round.
  unfold bind, sleep, emit, send_get, console_log. rewrite H. cbn.
  now rewrite Hf.
Qed.

Lemma poll_in_progress (res : Runtime) (rest : list (reply Runtime)) :
  onGet cp = Resolves res :: rest ->
  in_progress (status res) = true ->
  waitForReady agentRuntimeId cp =
  (result (waitForReady agentRuntimeId (answered cp)),
   remaining (waitForReady agentRuntimeId (answered cp)),
   (round agentRuntimeId (status res)
      ++ trace (waitForReady agentRuntimeId (answered cp)))%list).
Proof.
  intros H Hp. rewrite waitForReady_round.
  remember (waitForReady agentRuntimeId) as W.
  unfold bind, sleep, emit, send_get, console_log. rewrite H. cbn.
  rewrite (failed_not_in_progress _ Hp), Hp.
  destruct (W (answered cp)) as [[o cp'] t]. reflexivity.
Qed.

Lemma poll_settled (res : Runtime) (rest : list (reply Runtime)) :
  onGet cp = Resolves res :: rest ->
  failed (status res) = false ->
  in_progress (status res) = false ->
  waitForReady agentRuntimeId cp =
  (Returned (status res), answered cp, round agentRuntimeId (status res)).
Proof.
  intros H Hf Hp. rewrite waitForReady_round.
  unfold bind, sleep, emit, send_get, console_log. rewrite H. cbn.
  now rewrite Hf, Hp.
Qed.

End Rounds.

(** The rounds that read the in-progress answers [before]. *)
Lemma poll_through (agentRuntimeId : optstring) (before : list Runtime) :
  forall (cp : ControlPlane) (rest : list (reply Runtime)),
  onGet cp = (map Resolves before ++ rest)%list ->
  Forall (fun r => in_progress (status r) = true) before ->
  exists cp',
    onGet cp' = rest /\
    waitForReady agentRuntimeId cp =
    (result (waitForReady agentRuntimeId cp'),
     remaining (waitForReady agentRuntimeId cp'),
     (flat_map (fun r => round agentRuntimeId (status r)) before
        ++ trace (waitForReady agentRuntimeId cp'))%list).
Proof.
  induction before as [|r before IH]; intros cp rest Hget Hall.
  - exists cp. split; [exact Hget|].
    now destruct (waitForReady agentRuntimeId cp) as [[o c] t].
  - inversion Hall as [|? ? Hr Hrest]; subst.
    destruct (IH (answered cp) rest) as (cp' & Hget' & Hrun);
      [now apply (onGet_answered cp (Resolves r)) | assumption |].
    exists cp'. split; [exact Hget'|].
    rewrite (poll_in_progress _ _ r (map Resolves before ++ rest)%list Hget Hr).
    rewrite Hrun. cbn [result remaining trace fst snd flat_map].
    now rewrite <- app_assoc.
Qed.

Lemma sent_app (t1 t2 : list event) : sent (t1 ++ t2) = (sent t1 ++ sent t2)%list.
Proof. apply flat_map_app. Qed.

Lemma calls_app (kind : command -> bool) (t1 t2 : list event) :
  calls kind (t1 ++ t2) = (calls kind t1 ++ calls kind t2)%list.
Proof. unfold calls. now rewrite sent_app, filter_app. Qed.

Lemma sent_rounds (agentRuntimeId : optstring) (before : list Runtime) :
  sent (flat_map (fun r => round agentRuntimeId (status r)) before)
  = repeat (GetAgentRuntimeCommand agentRuntimeId) (length before).
Proof.
  induction before as [|r before IH]; [reflexivity|].
  cbn [flat_map]. rewrite sent_app, IH. reflexivity.
Qed.

(** The poll is left pending exactly when every answer the control plane
    gave was in progress: the loop has no bound of its own, and it is the
    lack of a further answer, never the bound [n] of [waitForReady_loop],
    that leaves it waiting. *)
Lemma pending_iff_all_in_progress (agentRuntimeId : optstring) (polls : list (reply Runtime)) :
  forall cp : ControlPlane,
  onGet cp = polls ->
  result (waitForReady agentRuntimeId cp) = Pending <->
  Forall (fun r => exists res, r = Resolves res /\ in_progress (status res) = true) polls.
Proof.
  induction polls as [|r polls IH]; intros cp Hget.
  - rewrite (poll_unanswered _ _ Hget). split; [constructor | reflexivity].
  - destruct r as [res|e].
    + destruct (in_progress (status res)) eqn:Hp.
      * rewrite (poll_in_progress _ _ res polls Hget Hp). cbn [result fst].
        fold (result (waitForReady agentRuntimeId (answered cp))).
        rewrite (IH (answered cp) (onGet_answered cp _ _ Hget)).
        split.
        -- intros H. constructor; [now exists res | exact H].
        -- intros H. now inversion H.
      * destruct (failed (status res)) eqn:Hf.
        -- rewrite (poll_failed _ _ res polls Hget Hf). split; [discriminate|].
           intros H. inversion H as [|? ? (res' & Heq & Hp') _]; subst.
           injection Heq as <-. congruence.
        -- rewrite (poll_settled _ _ res polls Hget Hf Hp). split; [discriminate|].
           intros H. inversion H as [|? ? (res' & Heq & Hp') _]; subst.
           injection Heq as <-. congruence.
    + rewrite (poll_rejected _ _ e polls Hget). split; [discriminate|].
      intros H. inversion H as [|? ? (res' & Heq & _) _]. discriminate.
Qed.

(** Any status other than the two failures and the two in-progress ones
    ends the loop: it is returned after the round that read it, and no
    further answer of the control plane is asked for. *)
Lemma other_status_ends_polling (agentRuntimeId : optstring) (cp : ControlPlane)
    (res : Runtime) (rest : list (reply Runtime)) :
  onGet cp = Resolves res :: rest ->
  status res <> Some "CREATING" -> status res <> Some "UPDATING" ->
  status res <> Some "CREATE_FAILED" -> status res <> Some "UPDATE_FAILED" ->
  waitForReady agentRuntimeId cp =
  (Returned (status res), answered cp, round agentRuntimeId (status res)).
Proof.
  intros H H1 H2 H3 H4. apply (poll_settled _ _ _ rest H).
  - unfold failed. apply orb_false_iff. split;
      (destruct (strict_eq _ _) eqn:E; [apply strict_eq_true in E; contradiction | reflexivity]).
  - unfold in_progress. apply orb_false_iff. split;
      (destruct (strict_eq _ _) eqn:E; [apply strict_eq_true in E; contradiction | reflexivity]).
Qed.

(** C1. A status outside CREATING, UPDATING, READY, CREATE_FAILED and
    UPDATE_FAILED does not keep the poll going, although the comment on
    [waitForReady] has it poll until the runtime is READY or fails.
    Against a control plane that reports DELETING and would report READY
    next, [waitForReady] makes one [GetAgentRuntime] request, returns
    DELETING and leaves the READY answer unasked for; the script then
    prints that the runtime is updated and READY, and ends normally. *)
Theorem C1_unrecognised_status_ends_the_poll :
  let cp := Scenario.plane [Scenario.entry AGENT_NAME "agentcore_deployment-Zk3RNy1qLp"]
              [Scenario.reports "DELETING"; Scenario.reports "READY"] in
  waitForReady Scenario.the_id cp =
    (Returned (Some "DELETING"), answered cp, round Scenario.the_id (Some "DELETING"))
  /\ calls is_get (trace (waitForReady Scenario.the_id cp))
     = [GetAgentRuntimeCommand Scenario.the_id]
  /\ onGet (remaining (waitForReady Scenario.the_id cp))
     = [Resolves (Scenario.reports "READY")]
  /\ result (main Scenario.env cp) = Returned tt
  /\ console (trace (main Scenario.env cp)) =
       [ConsoleLog ("Role ARN: " ++ template (ROLE_ARN Scenario.env));
        ConsoleLog ("Repository URI: " ++ template (REPO_URI Scenario.env));
        ConsoleLog (LF ++ "Updating existing AgentCore Runtime: agentcore_deployment-Zk3RNy1qLp");
        ConsoleLog "Waiting for runtime to be ready...";
        ConsoleLog "  Status: DELETING";
        ConsoleLog (LF ++ "✓ Agent Runtime updated and READY!");
        ConsoleLog ("Agent Runtime ARN: " ++ template (agentRuntimeArn (Scenario.accepted "UPDATING")));
        ConsoleLog (LF ++ "To invoke:");
        ConsoleLog ("AGENT_RUNTIME_ARN=" ++ template (agentRuntimeArn (Scenario.accepted "UPDATING"))
                      ++ " npm run invoke " ++ DQUOTE ++ "your prompt" ++ DQUOTE)].
Proof. cbv zeta. repeat split. Qed.

(** C3, as the code has it.  When the control plane answers the polls with
    CREATING, CREATING and READY, [waitForReady] sends exactly three
    [GetAgentRuntime] requests, one for each of these answers, and returns
    the status READY: the status string of the last response, which is all
    it returns of that response. *)
Theorem C3_three_polls_return_ready_status (agentRuntimeId : optstring)
    (cp : ControlPlane) (d1 d2 d3 : Runtime) (rest : list (reply Runtime)) :
  onGet cp = Resolves d1 :: Resolves d2 :: Resolves d3 :: rest ->
  status d1 = Some "CREATING" ->
  status d2 = Some "CREATING" ->
  status d3 = Some "READY" ->
  result (waitForReady agentRuntimeId cp) = Returned (Some "READY")
  /\ sent (trace (waitForReady agentRuntimeId cp))
     = [GetAgentRuntimeCommand agentRuntimeId;
        GetAgentRuntimeCommand agentRuntimeId;
        GetAgentRuntimeCommand agentRuntimeId]
  /\ length (calls is_get (trace (waitForReady agentRuntimeId cp))) = 3
  /\ onGet (remaining (waitForReady agentRuntimeId cp)) = rest.
Proof.
  intros Hget H1 H2 H3.
  destruct (poll_through agentRuntimeId [d1; d2] cp (Resolves d3 :: rest) Hget)
    as (cp' & Hget' & Hrun).
  { repeat constructor; [rewrite H1 | rewrite H2]; reflexivity. }
  rewrite Hrun.
  rewrite (poll_settled agentRuntimeId cp' d3 rest Hget')
    by (rewrite H3; reflexivity).
  cbn [result remaining trace fst snd]. rewrite H3.
  repeat split.
  now apply (onGet_answered cp' (Resolves d3)).
Qed.

Lemma C3_three_polls_witness :
  let cp := Scenario.plane [] [Scenario.reports "CREATING"; Scenario.reports "CREATING";
                               Scenario.reports_with_arn "READY" "arn:runtime/a"] in
  result (waitForReady Scenario.the_id cp) = Returned (Some "READY")
  /\ sent (trace (waitForReady Scenario.the_id cp))
     = [GetAgentRuntimeCommand Scenario.the_id;
        GetAgentRuntimeCommand Scenario.the_id;
        GetAgentRuntimeCommand Scenario.the_id]
  /\ length (calls is_get (trace (waitForReady Scenario.the_id cp))) = 3
  /\ onGet (remaining (waitForReady Scenario.the_id cp)) = [].
Proof.
  apply (C3_three_polls_return_ready_status Scenario.the_id _
           (Scenario.reports "CREATING") (Scenario.reports "CREATING")
           (Scenario.reports_with_arn "READY" "arn:runtime/a") []);
    reflexivity.
Defined.

(** C3 as the specification states it fails in what is returned: what
    [waitForReady] returns is not the descriptor.  Two control planes
    answer CREATING, CREATING, READY and differ in the READY descriptor
    (its ARN); the value returned is the same for both, the string READY. *)
Lemma C3_returns_status_not_descriptor :
  let a := Scenario.reports_with_arn "READY" "arn:runtime/a" in
  let b := Scenario.reports_with_arn "READY" "arn:runtime/b" in
  let polls d := [Scenario.reports "CREATING"; Scenario.reports "CREATING"; d] in
  a <> b
  /\ result (waitForReady Scenario.the_id (Scenario.plane [] (polls a)))
     = Returned (Some "READY")
  /\ result (waitForReady Scenario.the_id (Scenario.plane [] (polls b)))
     = Returned (Some "READY").
Proof. cbv zeta. repeat split. discriminate. Qed.

(** C4. Whenever a poll is answered with CREATE_FAILED or UPDATE_FAILED
    (after any number of in-progress answers), [waitForReady] throws at
    once: the failing answer is the last one it asks for.  The message of
    the error holds the [failureReason] of that answer, and holds Unknown
    when the answer has no [failureReason]. *)
Theorem C4_failure_status_throws_with_reason (agentRuntimeId : optstring)
    (cp : ControlPlane) (before : list Runtime) (res : Runtime)
    (rest : list (reply Runtime)) :
  onGet cp = (map Resolves before ++ Resolves res :: rest)%list ->
  Forall (fun r => in_progress (status r) = true) before ->
  status res = Some "CREATE_FAILED" \/ status res = Some "UPDATE_FAILED" ->
  exists message,
    result (waitForReady agentRuntimeId cp) = Threw (Error message)
    /\ (forall reason, failureReason res = Some reason -> includes message reason)
    /\ (failureReason res = None -> includes message "Unknown")
    /\ sent (trace (waitForReady agentRuntimeId cp))
       = repeat (GetAgentRuntimeCommand agentRuntimeId) (S (length before))
    /\ onGet (remaining (waitForReady agentRuntimeId cp)) = rest.
Proof.
  intros Hget Hall Hstatus.
  destruct (poll_through agentRuntimeId before cp _ Hget Hall) as (cp' & Hget' & Hrun).
  assert (Hf : failed (status res) = true)
    by (destruct Hstatus as [-> | ->]; reflexivity).
  rewrite Hrun, (poll_failed agentRuntimeId cp' res rest Hget' Hf).
  cbn [result remaining trace fst snd].
  exists ("Deployment failed: " ++ or_else (failureReason res) "Unknown").
  split; [reflexivity|]. split; [|split; [|split]].
  - intros reason Hreason. now apply includes_or_else.
  - intros ->. apply (includes_suffix "Deployment failed: " "Unknown").
  - rewrite sent_app, sent_rounds. cbn [round sent flat_map app].
    now rewrite <- repeat_cons.
  - now apply (onGet_answered cp' (Resolves res)).
Qed.

Lemma C4_failure_status_witness :
  exists message,
    result (waitForReady Scenario.the_id
              (Scenario.plane [] [Scenario.reports "UPDATING";
                                  Scenario.fails_with "UPDATE_FAILED" "image pull failed";
                                  Scenario.reports "READY"]))
    = Threw (Error message)
    /\ (forall reason,
          failureReason (Scenario.fails_with "UPDATE_FAILED" "image pull failed") = Some reason ->
          includes message reason)
    /\ (failureReason (Scenario.fails_with "UPDATE_FAILED" "image pull failed") = None ->
        includes message "Unknown")
    /\ sent (trace (waitForReady Scenario.the_id
                      (Scenario.plane [] [Scenario.reports "UPDATING";
                                          Scenario.fails_with "UPDATE_FAILED" "image pull failed";
                                          Scenario.reports "READY"])))
       = repeat (GetAgentRuntimeCommand Scenario.the_id) 2
    /\ onGet (remaining (waitForReady Scenario.the_id
                           (Scenario.plane [] [Scenario.reports "UPDATING";
                                               Scenario.fails_with "UPDATE_FAILED" "image pull failed";
                                               Scenario.reports "READY"])))
       = [Resolves (Scenario.reports "READY")].
Proof.
  apply (C4_failure_status_throws_with_reason Scenario.the_id _
           [Scenario.reports "UPDATING"]
           (Scenario.fails_with "UPDATE_FAILED" "image pull failed")
           [Resolves (Scenario.reports "READY")]).
  - reflexivity.
  - repeat constructor.
  - right. reflexivity.
Defined.

(** The two runs the specification names as tests. *)
Example failure_surfacing :
  result (waitForReady Scenario.the_id
            (Scenario.plane [] [Scenario.reports "UPDATING";
                                Scenario.fails_with "UPDATE_FAILED" "image pull failed"]))
  = Threw (Error "Deployment failed: image pull failed").
Proof. reflexivity. Qed.

Example missing_reason_default :
  result (waitForReady Scenario.the_id (Scenario.plane [] [Scenario.reports "CREATE_FAILED"]))
  = Threw (Error "Deployment failed: Unknown").
Proof. reflexivity. Qed.

(** An empty [failureReason] is falsy, so Unknown stands in for it too. *)
Example empty_reason_default :
  result (waitForReady Scenario.the_id
            (Scenario.plane [] [Scenario.fails_with "CREATE_FAILED" EmptyString]))
  = Threw (Error "Deployment failed: Unknown").
Proof. reflexivity. Qed.

(** Polling sends [GetAgentRuntime] requests and nothing else. *)
Lemma waitForReady_loop_sends_gets (n : nat) (agentRuntimeId : optstring) :
  forall cp : ControlPlane,
  Forall (fun c => is_get c = true) (sent (trace (waitForReady_loop n agentRuntimeId cp))).
Proof.
  induction n as [|n IH]; intros cp; [constructor|].
  rewrite waitForReady_loop_S.
  unfold bind, sleep, emit, send_get, console_log.
  destruct (onGet cp) as [|[res|e] rest]; cbn; try (repeat constructor).
  destruct (failed (status res)); [repeat constructor|].
  destruct (in_progress (status res)); [|repeat constructor].
  specialize (IH (answered cp)).
  destruct (waitForReady_loop n agentRuntimeId (answered cp)) as [[o c] t].
  cbn in *. constructor; [reflexivity | exact IH].
Qed.

Lemma waitForReady_calls (kind : command -> bool) (agentRuntimeId : optstring)
    (cp : ControlPlane) :
  (forall c, is_get c = true -> kind c = false) ->
  calls kind (trace (waitForReady agentRuntimeId cp)) = [].
Proof.
  intros Hkind. unfold calls, waitForReady.
  pose proof (waitForReady_loop_sends_gets (S (length (onGet cp))) agentRuntimeId cp) as H.
  induction H as [|c l Hc _ IH]; [reflexivity|].
  cbn [filter]. now rewrite (Hkind c Hc).
Qed.

(** Polling reads the control plane through its answers to the polls only. *)
Lemma waitForReady_loop_reads_polls (n : nat) (agentRuntimeId : optstring) :
  forall cp1 cp2 : ControlPlane,
  onGet cp1 = onGet cp2 ->
  result (waitForReady_loop n agentRuntimeId cp1)
  = result (waitForReady_loop n agentRuntimeId cp2)
  /\ trace (waitForReady_loop n agentRuntimeId cp1)
     = trace (waitForReady_loop n agentRuntimeId cp2).
Proof.
  induction n as [|n IH]; intros cp1 cp2 Hget; [split; reflexivity|].
  rewrite !waitForReady_loop_S.
  unfold bind, sleep, emit, send_get, console_log. rewrite Hget.
  destruct (onGet cp2) as [|[res|e] rest] eqn:H2; cbn; try (split; reflexivity).
  destruct (failed (status res)); [split; reflexivity|].
  destruct (in_progress (status res)); [|split; reflexivity].
  destruct (IH (answered cp1) (answered cp2)) as [Hr Ht];
    [cbn; now rewrite Hget, H2|].
  destruct (waitForReady_loop n agentRuntimeId (answered cp1)) as [[o1 c1] t1].
  destruct (waitForReady_loop n agentRuntimeId (answered cp2)) as [[o2 c2] t2].
  cbn in *. subst. split; reflexivity.
Qed.

Lemma waitForReady_reads_polls (agentRuntimeId : optstring) (cp1 cp2 : ControlPlane) :
  onGet cp1 = onGet cp2 ->
  result (waitForReady agentRuntimeId cp1) = result (waitForReady agentRuntimeId cp2)
  /\ trace (waitForReady agentRuntimeId cp1) = trace (waitForReady agentRuntimeId cp2).
Proof.
  intros H. unfold waitForReady. rewrite H.
  now apply waitForReady_loop_reads_polls.
Qed.

(** *** Validation *)

(** C5. When [REPO_URI] (the container reference) or [ROLE_ARN] (the role
    reference) is unset or empty, the deployment throws the error that
    names the missing variables before anything else happens: nothing is
    sent to the control plane, neither a listing nor a create, update or
    get request. The script reports the error and exits with status 1. *)
Theorem C5_missing_configuration_sends_nothing (env : Env) (cp : ControlPlane) :
  absent (REPO_URI env) \/ absent (ROLE_ARN env) ->
  deploy env cp = (Threw (Error missing_variables), cp, [])
  /\ main env cp
     = (Exited 1, cp,
        [ConsoleError "Deployment failed:" (Error missing_variables); ProcessExit 1])
  /\ sent (trace (main env cp)) = [].
Proof.
  intros H.
  assert (Hd : deploy env cp = (Threw (Error missing_variables), cp, [])).
  { unfold deploy.
    destruct H as [H | H]; apply truthy_false in H; rewrite H; rewrite ?orb_true_r;
      reflexivity. }
  assert (Hm : main env cp
               = (Exited 1, cp,
                  [ConsoleError "Deployment failed:" (Error missing_variables); ProcessExit 1])).
  { unfold main, try_catch. rewrite Hd. reflexivity. }
  split; [exact Hd|]. split; [exact Hm|]. now rewrite Hm.
Qed.

Lemma C5_missing_configuration_witness :
  deploy Scenario.env_without_repo (Scenario.plane [] [])
  = (Threw (Error missing_variables), Scenario.plane [] [], [])
  /\ main Scenario.env_without_repo (Scenario.plane [] [])
     = (Exited 1, Scenario.plane [] [],
        [ConsoleError "Deployment failed:" (Error missing_variables); ProcessExit 1])
  /\ sent (trace (main Scenario.env_without_repo (Scenario.plane [] []))) = [].
Proof.
  apply (C5_missing_configuration_sends_nothing Scenario.env_without_repo).
  left. right. reflexivity.
Defined.

(** *** Create or update *)

Lemma find_agent_absent (listing : agentRuntimes) :
  ~ In (Some AGENT_NAME) (names listing) -> find_agent listing = None.
Proof.
  unfold find_agent, names. intros Hnot.
  destruct (find _ _) as [a|] eqn:E; [|reflexivity].
  apply find_some in E. destruct E as [Hin Hname].
  apply strict_eq_true in Hname. exfalso. apply Hnot.
  rewrite <- Hname. now apply in_map.
Qed.

Lemma find_agent_present (listing : agentRuntimes) :
  In (Some AGENT_NAME) (names listing) ->
  exists existing,
    find_agent listing = Some existing /\ agentRuntimeName existing = Some AGENT_NAME.
Proof.
  unfold find_agent, names. intros Hin.
  apply in_map_iff in Hin. destruct Hin as (a & Hname & Hin).
  destruct (find _ _) as [existing|] eqn:E.
  - exists existing. split; [reflexivity|].
    apply find_some in E. now apply strict_eq_true.
  - exfalso. apply (find_none _ _ E) in Hin.
    rewrite Hname in Hin. discriminate.
Qed.

(** The script asks for the listing exactly when it accepts its
    configuration. *)
Lemma listing_requested (env : Env) (cp : ControlPlane) :
  In (Sent ListAgentRuntimesCommand) (trace (main env cp)) ->
  truthy (ROLE_ARN env) = true /\ truthy (REPO_URI env) = true.
Proof.
  intros Hin.
  destruct (truthy (ROLE_ARN env)) eqn:Hrole, (truthy (REPO_URI env)) eqn:Hrepo;
    try (split; reflexivity); exfalso;
    unfold main, try_catch, deploy in Hin; rewrite Hrole, Hrepo in Hin;
    cbn in Hin; intuition discriminate.
Qed.

(** Count the calls in a trace that holds the trace of the poll [w]. *)
Ltac count_calls w :=
  let Hc := fresh "Hc" in
  let Hu := fresh "Hu" in
  let t := fresh "t" in
  assert (Hc : calls is_create (trace w) = [])
    by (apply waitForReady_calls; intros [] ?; (reflexivity || discriminate));
  assert (Hu : calls is_update (trace w) = [])
    by (apply waitForReady_calls; intros [] ?; (reflexivity || discriminate));
  destruct w as [[[? | ? | ? |] ?] t];
  unfold calls, sent, trace in *; cbn [fst snd] in *;
  cbn [app flat_map filter is_create is_update];
  rewrite ?flat_map_app, ?filter_app, ?Hc, ?Hu;
  split; reflexivity.

Ltac run_script :=
  unfold main, try_catch, deploy, findExistingAgent, bind, send_list, send_update,
    send_create, console_log, console_error, process_exit, emit, ret.

Lemma creates_when_not_found (env : Env) (cp : ControlPlane) (listing : agentRuntimes) :
  truthy (ROLE_ARN env) = true -> truthy (REPO_URI env) = true ->
  onList cp = Resolves listing ->
  find_agent listing = None ->
  calls is_create (trace (main env cp))
  = [CreateAgentRuntimeCommand AGENT_NAME (template (REPO_URI env) ++ ":latest")
       "PUBLIC" (ROLE_ARN env)]
  /\ calls is_update (trace (main env cp)) = [].
Proof.
  intros Hrole Hrepo Hlist Hfind.
  run_script. rewrite Hrole, Hrepo. cbv beta iota delta [negb orb].
  rewrite Hlist. cbv beta iota delta [settle]. rewrite Hfind.
  destruct (onCreate cp) as [response|e]; cbv beta iota; [|split; reflexivity].
  count_calls (waitForReady (agentRuntimeId response) cp).
Qed.

Lemma updates_when_found (env : Env) (cp : ControlPlane) (listing : agentRuntimes)
    (existing : Runtime) :
  truthy (ROLE_ARN env) = true -> truthy (REPO_URI env) = true ->
  onList cp = Resolves listing ->
  find_agent listing = Some existing ->
  calls is_update (trace (main env cp))
  = [UpdateAgentRuntimeCommand (agentRuntimeId existing)
       (template (REPO_URI env) ++ ":latest") (ROLE_ARN env) "PUBLIC"]
  /\ calls is_create (trace (main env cp)) = [].
Proof.
  intros Hrole Hrepo Hlist Hfind.
  run_script. rewrite Hrole, Hrepo. cbv beta iota delta [negb orb].
  rewrite Hlist. cbv beta iota delta [settle]. rewrite Hfind.
  destruct (onUpdate cp) as [response|e]; cbv beta iota; [|split; reflexivity].
  count_calls (waitForReady (agentRuntimeId response) cp).
Qed.

(** C2. Whenever the script asks for the listing and gets it: if no entry
    of the listing bears the target name, the script sends exactly one
    [CreateAgentRuntime] request and no [UpdateAgentRuntime] request; if an
    entry bears it, the script sends exactly one [UpdateAgentRuntime]
    request, with the id of the entry found, the container and role it was
    given and the network mode PUBLIC, and no [CreateAgentRuntime] request. *)
Theorem C2_create_when_absent_update_when_present (env : Env) (cp : ControlPlane)
    (listing : agentRuntimes) :
  In (Sent ListAgentRuntimesCommand) (trace (main env cp)) ->
  onList cp = Resolves listing ->
  (~ In (Some AGENT_NAME) (names listing) ->
   calls is_create (trace (main env cp))
   = [CreateAgentRuntimeCommand AGENT_NAME (template (REPO_URI env) ++ ":latest")
        "PUBLIC" (ROLE_ARN env)]
   /\ calls is_update (trace (main env cp)) = [])
  /\ (In (Some AGENT_NAME) (names listing) ->
      exists existing,
        find_agent listing = Some existing
        /\ agentRuntimeName existing = Some AGENT_NAME
        /\ calls is_update (trace (main env cp))
           = [UpdateAgentRuntimeCommand (agentRuntimeId existing)
                (template (REPO_URI env) ++ ":latest") (ROLE_ARN env) "PUBLIC"]
        /\ calls is_create (trace (main env cp)) = []).
Proof.
  intros Hreq Hlist.
  destruct (listing_requested env cp Hreq) as [Hrole Hrepo].
  split.
  - intros Habsent. apply find_agent_absent in Habsent.
    now apply (creates_when_not_found env cp listing).
  - intros Hpresent.
    destruct (find_agent_present listing Hpresent) as (existing & Hfind & Hname).
    exists existing. split; [exact Hfind|]. split; [exact Hname|].
    now apply (updates_when_found env cp listing).
Qed.

Lemma C2_create_update_witness :
  (calls is_create (trace (main Scenario.env (Scenario.plane [] [Scenario.reports "READY"])))
   = [CreateAgentRuntimeCommand AGENT_NAME (template (REPO_URI Scenario.env) ++ ":latest")
        "PUBLIC" (ROLE_ARN Scenario.env)]
   /\ calls is_update (trace (main Scenario.env (Scenario.plane [] [Scenario.reports "READY"])))
      = [])
  /\ (exists existing,
        find_agent (Some [Scenario.entry "another_agent" "another_agent-1a2B3c4D5e";
                          Scenario.entry AGENT_NAME "agentcore_deployment-Zk3RNy1qLp"])
        = Some existing
        /\ agentRuntimeName existing = Some AGENT_NAME
        /\ calls is_update
             (trace (main Scenario.env
                       (Scenario.plane
                          [Scenario.entry "another_agent" "another_agent-1a2B3c4D5e";
                           Scenario.entry AGENT_NAME "agentcore_deployment-Zk3RNy1qLp"]
                          [Scenario.reports "READY"])))
           = [UpdateAgentRuntimeCommand (agentRuntimeId existing)
                (template (REPO_URI Scenario.env) ++ ":latest") (ROLE_ARN Scenario.env) "PUBLIC"]
        /\ calls is_create
             (trace (main Scenario.env
                       (Scenario.plane
                          [Scenario.entry "another_agent" "another_agent-1a2B3c4D5e";
                           Scenario.entry AGENT_NAME "agentcore_deployment-Zk3RNy1qLp"]
                          [Scenario.reports "READY"])))
           = []).
Proof.
  split.
  - apply (C2_create_when_absent_update_when_present Scenario.env
             (Scenario.plane [] [Scenario.reports "READY"]) (Some [])).
    + simpl. right. right. left. reflexivity.
    + reflexivity.
    + simpl. intros [].
  - apply (C2_create_when_absent_update_when_present Scenario.env
             (Scenario.plane
                [Scenario.entry "another_agent" "another_agent-1a2B3c4D5e";
                 Scenario.entry AGENT_NAME "agentcore_deployment-Zk3RNy1qLp"]
                [Scenario.reports "READY"])
             (Some [Scenario.entry "another_agent" "another_agent-1a2B3c4D5e";
                    Scenario.entry AGENT_NAME "agentcore_deployment-Zk3RNy1qLp"])).
    + simpl. right. right. left. reflexivity.
    + reflexivity.
    + simpl. right. left. reflexivity.
Defined.

(** *** Entries that share the target name *)

Lemma find_first (before after : list Runtime) (first : Runtime) :
  Forall (fun a => agentRuntimeName a <> Some AGENT_NAME) before ->
  agentRuntimeName first = Some AGENT_NAME ->
  find_agent (Some (before ++ first :: after)%list) = Some first.
Proof.
  unfold find_agent. intros Hbefore Hfirst.
  induction Hbefore as [|a before Ha _ IH]; cbn [app find].
  - now rewrite Hfirst.
  - destruct (strict_eq (agentRuntimeName a) AGENT_NAME) eqn:E; [|exact IH].
    apply strict_eq_true in E. contradiction.
Qed.

(** The script reads the listing through [find_agent] only: two control
    planes whose listings give the same entry, and which agree otherwise,
    make it run the same way. *)
Lemma main_reads_listing_through_find (env : Env) (cp : ControlPlane)
    (listing listing' : agentRuntimes) :
  onList cp = Resolves listing ->
  find_agent listing = find_agent listing' ->
  result (main env cp) = result (main env (with_listing cp listing'))
  /\ trace (main env cp) = trace (main env (with_listing cp listing')).
Proof.
  intros Hlist Hfind. run_script.
  destruct (negb (truthy (ROLE_ARN env)) || negb (truthy (REPO_URI env)));
    [split; reflexivity|].
  cbv beta iota. rewrite Hlist. cbn [with_listing onList settle].
  cbv beta iota. rewrite <- Hfind.
  destruct (find_agent listing) as [existing|]; cbv beta iota.
  - change (onUpdate (with_listing cp listing')) with (onUpdate cp).
    destruct (onUpdate cp) as [response|e]; cbv beta iota delta [settle]; [|split; reflexivity].
    destruct (waitForReady_reads_polls (agentRuntimeId response) cp
                (with_listing cp listing') eq_refl) as [Hr Ht].
    destruct (waitForReady (agentRuntimeId response) cp) as [[o1 c1] t1].
    destruct (waitForReady (agentRuntimeId response) (with_listing cp listing'))
      as [[o2 c2] t2].
    cbn [result trace fst snd] in Hr, Ht. subst o2 t2.
    destruct o1; split; reflexivity.
  - change (onCreate (with_listing cp listing')) with (onCreate cp).
    destruct (onCreate cp) as [response|e]; cbv beta iota delta [settle]; [|split; reflexivity].
    destruct (waitForReady_reads_polls (agentRuntimeId response) cp
                (with_listing cp listing') eq_refl) as [Hr Ht].
    destruct (waitForReady (agentRuntimeId response) cp) as [[o1 c1] t1].
    destruct (waitForReady (agentRuntimeId response) (with_listing cp listing'))
      as [[o2 c2] t2].
    cbn [result trace fst snd] in Hr, Ht. subst o2 t2.
    destruct o1; split; reflexivity.
Qed.

(** C7, as the code has it.  When several entries of the listing bear the
    target name, the first of them is the one the script updates, and the
    script runs exactly as it does against the listing that holds this
    entry alone: it sends the same requests, prints the same lines and ends
    the same way.  The later entries are never looked at, so nothing is
    detected, printed or raised about them. *)
Theorem C7_first_match_is_updated_rest_ignored (env : Env) (cp : ControlPlane)
    (before after : list Runtime) (first : Runtime) :
  In (Sent ListAgentRuntimesCommand) (trace (main env cp)) ->
  onList cp = Resolves (Some (before ++ first :: after)%list) ->
  Forall (fun a => agentRuntimeName a <> Some AGENT_NAME) before ->
  agentRuntimeName first = Some AGENT_NAME ->
  calls is_update (trace (main env cp))
  = [UpdateAgentRuntimeCommand (agentRuntimeId first)
       (template (REPO_URI env) ++ ":latest") (ROLE_ARN env) "PUBLIC"]
  /\ calls is_create (trace (main env cp)) = []
  /\ result (main env cp) = result (main env (with_listing cp (Some [first])))
  /\ trace (main env cp) = trace (main env (with_listing cp (Some [first]))).
Proof.
  intros Hreq Hlist Hbefore Hfirst.
  destruct (listing_requested env cp Hreq) as [Hrole Hrepo].
  pose proof (find_first before after first Hbefore Hfirst) as Hfind.
  destruct (updates_when_found env cp _ first Hrole Hrepo Hlist Hfind) as [Hu Hc].
  split; [exact Hu|]. split; [exact Hc|].
  apply (main_reads_listing_through_find env cp _ (Some [first]) Hlist).
  rewrite Hfind. symmetry. apply (find_first [] [] first); [constructor | exact Hfirst].
Qed.

Lemma C7_first_match_witness :
  let first := Scenario.entry AGENT_NAME "agentcore_deployment-Zk3RNy1qLp" in
  let second := Scenario.entry AGENT_NAME "agentcore_deployment-Qw8TmX2vBn" in
  let cp := Scenario.plane [Scenario.entry "another_agent" "another_agent-1a2B3c4D5e";
                            first; second]
              [Scenario.reports "UPDATING"; Scenario.reports "READY"] in
  calls is_update (trace (main Scenario.env cp))
  = [UpdateAgentRuntimeCommand (agentRuntimeId first)
       (template (REPO_URI Scenario.env) ++ ":latest") (ROLE_ARN Scenario.env) "PUBLIC"]
  /\ calls is_create (trace (main Scenario.env cp)) = []
  /\ result (main Scenario.env cp)
     = result (main Scenario.env (with_listing cp (Some [first])))
  /\ trace (main Scenario.env cp)
     = trace (main Scenario.env (with_listing cp (Some [first]))).
Proof.
  cbv zeta.
  apply (C7_first_match_is_updated_rest_ignored Scenario.env _
           [Scenario.entry "another_agent" "another_agent-1a2B3c4D5e"]
           [Scenario.entry AGENT_NAME "agentcore_deployment-Qw8TmX2vBn"]
           (Scenario.entry AGENT_NAME "agentcore_deployment-Zk3RNy1qLp")).
  - simpl. right. right. left. reflexivity.
  - reflexivity.
  - repeat constructor. discriminate.
  - reflexivity.
Defined.

(** C7 as the specification states it fails in one part: the duplicate is
    not a logged anomaly.  With two entries of the target name in the
    listing the script succeeds, updates the first, and writes to the
    console exactly the lines it writes when the second entry is not
    there; no line is about the duplicate. *)
Lemma C7_duplicate_is_not_logged :
  let first := Scenario.entry AGENT_NAME "agentcore_deployment-Zk3RNy1qLp" in
  let second := Scenario.entry AGENT_NAME "agentcore_deployment-Qw8TmX2vBn" in
  let twice := Scenario.plane [first; second] [Scenario.reports "READY"] in
  let once := Scenario.plane [first] [Scenario.reports "READY"] in
  result (main Scenario.env twice) = Returned tt
  /\ console (trace (main Scenario.env twice)) = console (trace (main Scenario.env once))
  /\ console (trace (main Scenario.env twice)) =
       [ConsoleLog ("Role ARN: " ++ template (ROLE_ARN Scenario.env));
        ConsoleLog ("Repository URI: " ++ template (REPO_URI Scenario.env));
        ConsoleLog (LF ++ "Updating existing AgentCore Runtime: agentcore_deployment-Zk3RNy1qLp");
        ConsoleLog "Waiting for runtime to be ready...";
        ConsoleLog "  Status: READY";
        ConsoleLog (LF ++ "✓ Agent Runtime updated and READY!");
        ConsoleLog ("Agent Runtime ARN: " ++ template (agentRuntimeArn (Scenario.accepted "UPDATING")));
        ConsoleLog (LF ++ "To invoke:");
        ConsoleLog ("AGENT_RUNTIME_ARN=" ++ template (agentRuntimeArn (Scenario.accepted "UPDATING"))
                      ++ " npm run invoke " ++ DQUOTE ++ "your prompt" ++ DQUOTE)].
Proof. cbv zeta. repeat split. Qed.

End DeployFacts.

(** ** The Express application *)

Module ServerFacts.
Import Server.

(** *** The calculator tool *)

(** C9. Dividing by a second operand equal to zero returns the string
    that refuses the division, and no division is carried out; dividing by
    any other second operand carries out one division and returns its
    quotient.  Equality with zero is that of JavaScript numbers. *)
Theorem C9_divide_by_zero_is_refused (a b : float) :
  (PrimFloat.eqb b 0%float = true ->
   calculatorTool Divide a b = (Text "Cannot divide by zero", []))
  /\ (PrimFloat.eqb b 0%float = false ->
      calculatorTool Divide a b = (Num (a / b)%float, [Over a b])).
Proof.
  unfold calculatorTool, number_neq_zero.
  split; intros ->; reflexivity.
Qed.

Lemma C9_divide_witness :
  calculatorTool Divide 1%float 0%float = (Text "Cannot divide by zero", [])
  /\ calculatorTool Divide 1%float 4%float = (Num (1 / 4)%float, [Over 1%float 4%float]).
Proof.
  split.
  - apply (C9_divide_by_zero_is_refused 1%float 0%float). reflexivity.
  - apply (C9_divide_by_zero_is_refused 1%float 4%float). reflexivity.
Defined.

Example divide_by_negative_zero :
  calculatorTool Divide 1%float (-0)%float = (Text "Cannot divide by zero", []).
Proof. reflexivity. Qed.

Example divide_quarter : fst (calculatorTool Divide 1%float 4%float) = Num 0.25%float.
Proof. reflexivity. Qed.

Example add_performs_one_addition :
  calculatorTool Add 1%float 2%float = (Num 3%float, [Plus 1%float 2%float]).
Proof. reflexivity. Qed.

(** *** [POST /invocations] *)

(** What the handler reads from a delivered body that is not a string is
    its [input.prompt] field. *)
Lemma userMessage_delivered (req_body : value) :
  delivered req_body ->
  userMessage req_body
  = Some (match req_body with Str s => Str s | _ => prompt_of req_body end).
Proof.
  destruct req_body as [| |b|x|s|items|properties]; cbn; try contradiction;
    intros _; try reflexivity.
  destruct (own_property properties "input"); reflexivity.
Qed.

(** A body that was never set, or is [null], makes the property access
    throw: the handler answers 500, and the agent is not invoked. *)
Lemma unset_body_is_an_error (agent : Agent) (req_body : value) :
  req_body = Undefined \/ req_body = Null ->
  invocations agent req_body
  = (send 500 None ("Error: " ++ cannot_read req_body "input"), []).
Proof. intros [-> | ->]; reflexivity. Qed.

(** A body with a truthy prompt has the agent invoked once, with it. *)
Lemma prompt_reaches_agent (agent : Agent) (req_body : value) :
  delivered req_body ->
  yields_prompt truthy req_body = true ->
  exists message,
    userMessage req_body = Some message /\ snd (invocations agent req_body) = [message].
Proof.
  intros Hd Hy. pose proof (userMessage_delivered req_body Hd) as Hm.
  eexists. split; [exact Hm|].
  unfold invocations. rewrite Hm.
  assert (Ht : truthy (match req_body with Str s => Str s | _ => prompt_of req_body end) = true).
  { destruct req_body; cbn in Hy |- *; try discriminate; exact Hy. }
  rewrite Ht. cbn [negb].
  destruct (agent _); reflexivity.
Qed.

(** C6, as the code has it.  For every request whose body, as the body
    parsers deliver it, yields no truthy prompt (the body is the empty
    string, or it is not a string and its [input.prompt] is missing or is
    one of null, false, 0, NaN and the empty string), the handler answers
    400 with the text that no prompt was provided, and the agent is not
    invoked.  Truthiness, not emptiness, is the test. *)
Theorem C6_no_truthy_prompt_is_rejected (agent : Agent) (req_body : value) :
  delivered req_body ->
  yields_prompt truthy req_body = false ->
  invocations agent req_body = (send 400 None "No prompt provided", [])
  /\ statusCode (fst (invocations agent req_body)) = 400%Z
  /\ snd (invocations agent req_body) = [].
Proof.
  intros Hd Hy.
  assert (H : invocations agent req_body = (send 400 None "No prompt provided", [])).
  { unfold invocations. rewrite (userMessage_delivered req_body Hd).
    assert (Ht : truthy (match req_body with Str s => Str s | _ => prompt_of req_body end)
                 = false).
    { destruct req_body; cbn in Hy |- *; try reflexivity; exact Hy. }
    now rewrite Ht. }
  rewrite H. repeat split.
Qed.

Lemma C6_no_truthy_prompt_witness :
  let agent := fun _ : value => Answers "sunny" in
  let req_body := Object [("input", Object [("prompt", Str EmptyString)])] in
  invocations agent req_body = (send 400 None "No prompt provided", [])
  /\ statusCode (fst (invocations agent req_body)) = 400%Z
  /\ snd (invocations agent req_body) = [].
Proof.
  cbv zeta.
  apply (C6_no_truthy_prompt_is_rejected (fun _ => Answers "sunny")
           (Object [("input", Object [("prompt", Str EmptyString)])])).
  - exact I.
  - reflexivity.
Defined.

(** C6 as the specification states it fails.  The body
    [{"input": {"prompt": []}}] is not a non-empty raw string, and its
    [input.prompt] field is empty; but an empty array is truthy, so the
    handler invokes the agent with it and answers what the agent answers,
    not 400. *)
Lemma C6_empty_array_prompt_reaches_agent :
  let agent := fun _ : value => Answers "sunny" in
  let req_body := Object [("input", Object [("prompt", Array [])])] in
  delivered req_body
  /\ yields_prompt nonempty req_body = false
  /\ invocations agent req_body = (send 200 (Some "text/plain") "sunny", [Array []])
  /\ statusCode (fst (invocations agent req_body)) <> 400%Z
  /\ snd (invocations agent req_body) <> [].
Proof. cbv zeta. repeat split; discriminate. Qed.

(** The bodies the specification names: no body parsed (Express 4 leaves
    [{}]), an empty envelope, an empty prompt. *)
Example empty_object_body (agent : Agent) :
  invocations agent (Object []) = (send 400 None "No prompt provided", []).
Proof. reflexivity. Qed.

Example empty_text_body (agent : Agent) :
  invocations agent (Str EmptyString) = (send 400 None "No prompt provided", []).
Proof. reflexivity. Qed.

Example zero_prompt (agent : Agent) :
  invocations agent (Object [("input", Object [("prompt", Number 0%float)])])
  = (send 400 None "No prompt provided", []).
Proof. reflexivity. Qed.

Example json_prompt :
  invocations (fun _ => Answers "sunny")
    (Object [("input", Object [("prompt", Str "What is the weather?")])])
  = (send 200 (Some "text/plain") "sunny", [Str "What is the weather?"]).
Proof. reflexivity. Qed.

Example agent_failure :
  invocations (fun _ => Fails (Error "model unavailable")) (Str "hello")
  = (send 500 None "Error: model unavailable", [Str "hello"]).
Proof. reflexivity. Qed.

(** *** [GET /ping] *)

Example ping_is_healthy :
  statusCode ping = 200%Z
  /\ body ping = "{" ++ Js.DQUOTE ++ "status" ++ Js.DQUOTE ++ ":"
                    ++ Js.DQUOTE ++ "Healthy" ++ Js.DQUOTE ++ "}".
Proof. split; reflexivity. Qed.

End ServerFacts.

(** ** The invocation client *)

Module InvokeAgentFacts.
Import Js JsFacts InvokeAgent.

(** *** Session identifiers *)

Lemma hex_byte_round_trip (b : byte) :
  hex_value (hex_digit (Byte.to_N b / 16)) = Some (Byte.to_N b / 16)%N
  /\ hex_value (hex_digit (Byte.to_N b mod 16)) = Some (Byte.to_N b mod 16)%N
  /\ Byte.of_N (16 * (Byte.to_N b / 16) + Byte.to_N b mod 16) = Some b.
Proof. destruct b; repeat split. Qed.

(** Reading the digits back gives the bytes that were written. *)
Lemma from_hex_toString_hex (buffer : list byte) :
  from_hex (toString_hex buffer) = Some buffer.
Proof.
  induction buffer as [|b rest IH]; [reflexivity|].
  cbn [toString_hex from_hex].
  destruct (hex_byte_round_trip b) as (-> & -> & ->).
  now rewrite IH.
Qed.

(** So two buffers with the same digits are the same buffer. *)
Lemma toString_hex_injective (b1 b2 : list byte) :
  toString_hex b1 = toString_hex b2 -> b1 = b2.
Proof.
  intros H. apply (f_equal from_hex) in H.
  rewrite !from_hex_toString_hex in H. now injection H.
Qed.

Lemma toString_hex_length (buffer : list byte) :
  String.length (toString_hex buffer) = 2 * List.length buffer.
Proof.
  induction buffer as [|b rest IH]; [reflexivity|].
  cbn [toString_hex String.length List.length]. rewrite IH. lia.
Qed.

Lemma randomBytes_length (size : nat) (os : entropy) :
  List.length (randomBytes size os) = size.
Proof. unfold randomBytes. now rewrite length_map, length_seq. Qed.

(** A session identifier is 34 hexadecimal digits. *)
Lemma sessionId_length (os : entropy) : String.length (sessionId os) = 34.
Proof. unfold sessionId. now rewrite toString_hex_length, randomBytes_length. Qed.

(** The session identifier is a function of the draw, and of nothing else:
    two runs have the same identifier exactly when they drew the same 17
    bytes. *)
Lemma sessionId_determined_by_draw (os1 os2 : entropy) :
  sessionId os1 = sessionId os2 <-> randomBytes 17 os1 = randomBytes 17 os2.
Proof.
  unfold sessionId. split; [apply toString_hex_injective | now intros ->].
Qed.

(** What a run with an ARN does: one request, then the answer or the
    failure. *)
Lemma main_with_arn (env : Env) (argv : list string) (os : entropy) (service : Service) :
  truthy (AGENT_RUNTIME_ARN env) = true ->
  main env argv os service =
  Sent (command env argv os) ::
  match service (command env argv os) with
  | Resolves responseBody => [ConsoleLog "Agent Response:" responseBody]
  | Rejects error => [ConsoleError "Invocation failed:" error; ProcessExit 1]
  end.
Proof. intros H. unfold main. now rewrite H. Qed.

Lemma sent_main (env : Env) (argv : list string) (os : entropy) (service : Service) :
  truthy (AGENT_RUNTIME_ARN env) = true ->
  sent (main env argv os service) = [command env argv os].
Proof.
  intros H. rewrite (main_with_arn env argv os service H).
  destruct (service _); reflexivity.
Qed.




Example session_id_of_zeros :
  sessionId Scenario.zeros = "0000000000000000000000000000000000".
Proof. reflexivity. Qed.

Example session_id_of_zeros_but_last :
  sessionId Scenario.zeros_but_last = "00000000000000000000000000000000ff".
Proof. reflexivity. Qed.

(** *** The default prompt *)

(** C10. Run without a prompt argument (and with the ARN it needs for any
    invocation), the client does not stop at its validation: it takes the
    prompt to be the default question, sends one request whose payload is
    that question, and goes on as it does when the question is given on
    the command line. *)
Theorem C10_missing_prompt_defaults (env : Env) (argv : list string) (os : entropy)
    (service : Service) :
  nth_error argv 2 = None ->
  truthy (AGENT_RUNTIME_ARN env) = true ->
  PROMPT argv = "What is the weather now?"
  /\ sent (main env argv os service)
     = [{| agentRuntimeArn := AGENT_RUNTIME_ARN env;
           runtimeSessionId := sessionId os;
           payload := TextEncoder_encode "What is the weather now?";
           qualifier := "DEFAULT" |}]
  /\ hd_error (main env argv os service) = Some (Sent (command env argv os))
  /\ forall argv', nth_error argv' 2 = Some "What is the weather now?" ->
       main env argv os service = main env argv' os service.
Proof.
  intros Hargv Harn.
  assert (Hp : PROMPT argv = "What is the weather now?")
    by (unfold PROMPT; now rewrite Hargv).
  split; [exact Hp|]. split; [|split].
  - rewrite sent_main by exact Harn. unfold command. now rewrite Hp.
  - now rewrite main_with_arn.
  - intros argv' Hargv'.
    assert (Hc : command env argv os = command env argv' os).
    { unfold command. rewrite Hp. unfold PROMPT. now rewrite Hargv'. }
    rewrite !main_with_arn by exact Harn. now rewrite Hc.
Qed.

Lemma C10_missing_prompt_witness :
  PROMPT Scenario.argv_bare = "What is the weather now?"
  /\ sent (main Scenario.client_env Scenario.argv_bare Scenario.zeros Scenario.sunny)
     = [{| agentRuntimeArn := AGENT_RUNTIME_ARN Scenario.client_env;
           runtimeSessionId := sessionId Scenario.zeros;
           payload := TextEncoder_encode "What is the weather now?";
           qualifier := "DEFAULT" |}]
  /\ hd_error (main Scenario.client_env Scenario.argv_bare Scenario.zeros Scenario.sunny)
     = Some (Sent (command Scenario.client_env Scenario.argv_bare Scenario.zeros))
  /\ forall argv', nth_error argv' 2 = Some "What is the weather now?" ->
       main Scenario.client_env Scenario.argv_bare Scenario.zeros Scenario.sunny
       = main Scenario.client_env argv' Scenario.zeros Scenario.sunny.
Proof.
  apply (C10_missing_prompt_defaults Scenario.client_env Scenario.argv_bare
           Scenario.zeros Scenario.sunny); reflexivity.
Defined.

Example bare_run :
  main Scenario.client_env Scenario.argv_bare Scenario.zeros Scenario.sunny
  = [Sent {| agentRuntimeArn := AGENT_RUNTIME_ARN Scenario.client_env;
             runtimeSessionId := "0000000000000000000000000000000000";
             payload := TextEncoder_encode "What is the weather now?";
             qualifier := "DEFAULT" |};
     ConsoleLog "Agent Response:" (Some "sunny")].
Proof. reflexivity. Qed.

(** Without the ARN the client stops before any request, prompt or not. *)
Example run_without_arn (argv : list string) (os : entropy) (service : Service) :
  main {| env_AGENT_RUNTIME_ARN := None; AWS_REGION := None |} argv os service
  = [ConsoleErrorLine "AGENT_RUNTIME_ARN environment variable is required";
     ProcessExit 1].
Proof. reflexivity. Qed.

End InvokeAgentFacts.

(** ** The deployment script: errors, waiting and the order of requests *)

Module DeployMore.
Import Js JsFacts Deploy DeployFacts DeployReading.
Local Open Scope js_scope.

(** *** The poll loop *)

(** X1. A rejected [GetAgentRuntime] request ends the poll with the
    exception it carries: after any number of in-progress answers,
    [waitForReady] throws that very exception, having sent one request for
    each answer it read and none after the rejected one. *)
Theorem X1_rejected_poll_is_rethrown (agentRuntimeId : optstring) (cp : ControlPlane)
    (before : list Runtime) (e : thrown) (rest : list (reply Runtime)) :
  onGet cp = (map Resolves before ++ Rejects e :: rest)%list ->
  Forall (fun r => in_progress (status r) = true) before ->
  result (waitForReady agentRuntimeId cp) = Threw e
  /\ sent (trace (waitForReady agentRuntimeId cp))
     = repeat (GetAgentRuntimeCommand agentRuntimeId) (S (length before))
  /\ onGet (remaining (waitForReady agentRuntimeId cp)) = rest.
Proof.
  intros Hget Hall.
  destruct (poll_through agentRuntimeId before cp _ Hget Hall) as (cp' & Hget' & Hrun).
  rewrite Hrun, (poll_rejected agentRuntimeId cp' e rest Hget').
  cbn [result remaining trace fst snd].
  split; [reflexivity|]. split.
  - rewrite sent_app, sent_rounds. cbn [sent flat_map app].
    now rewrite <- repeat_cons.
  - now apply (onGet_answered cp' (Rejects e)).
Qed.

Lemma X1_rejected_poll_witness :
  result (waitForReady Scenario.the_id
            {| onList := Resolves None;
               onCreate := Resolves (Scenario.accepted "CREATING");
               onUpdate := Resolves (Scenario.accepted "UPDATING");
               onGet := [Resolves (Scenario.reports "CREATING");
                         Rejects (ServiceException "ThrottlingException" "Rate exceeded");
                         Resolves (Scenario.reports "READY")] |})
  = Threw (ServiceException "ThrottlingException" "Rate exceeded")
  /\ sent (trace (waitForReady Scenario.the_id
                    {| onList := Resolves None;
                       onCreate := Resolves (Scenario.accepted "CREATING");
                       onUpdate := Resolves (Scenario.accepted "UPDATING");
                       onGet := [Resolves (Scenario.reports "CREATING");
                                 Rejects (ServiceException "ThrottlingException" "Rate exceeded");
                                 Resolves (Scenario.reports "READY")] |}))
     = repeat (GetAgentRuntimeCommand Scenario.the_id) 2
  /\ onGet (remaining (waitForReady Scenario.the_id
                         {| onList := Resolves None;
                            onCreate := Resolves (Scenario.accepted "CREATING");
                            onUpdate := Resolves (Scenario.accepted "UPDATING");
                            onGet := [Resolves (Scenario.reports "CREATING");
                                      Rejects (ServiceException "ThrottlingException" "Rate exceeded");
                                      Resolves (Scenario.reports "READY")] |}))
     = [Resolves (Scenario.reports "READY")].
Proof.
  apply (X1_rejected_poll_is_rethrown Scenario.the_id _ [Scenario.reports "CREATING"]
           (ServiceException "ThrottlingException" "Rate exceeded")
           [Resolves (Scenario.reports "READY")]).
  - reflexivity.
  - repeat constructor.
Defined.

(** The requests and timers of a poll, counted against the answers read. *)
Lemma poll_accounts (agentRuntimeId : optstring) (polls : list (reply Runtime)) :
  forall cp : ControlPlane,
  onGet cp = polls ->
  exists k,
    1 <= k
    /\ sent (trace (waitForReady agentRuntimeId cp))
       = repeat (GetAgentRuntimeCommand agentRuntimeId) k
    /\ sleeps (trace (waitForReady agentRuntimeId cp)) = repeat (Timeout 10000) k
    /\ k + length (onGet (remaining (waitForReady agentRuntimeId cp)))
       = length polls + unanswered (result (waitForReady agentRuntimeId cp)).
Proof.
  induction polls as [|r polls IH]; intros cp Hget.
  - rewrite (poll_unanswered _ _ Hget). exists 1.
    cbn [result remaining trace fst snd]. rewrite Hget.
    split; [lia|]. repeat split.
  - pose proof (onGet_answered cp r polls Hget) as Hrest.
    destruct r as [res|e].
    + destruct (in_progress (status res)) eqn:Hp.
      * destruct (IH (answered cp) Hrest) as (k & H1 & Hs & Ht & Hk).
        rewrite (poll_in_progress _ _ res polls Hget Hp).
        exists (S k). cbn [result remaining trace fst snd].
        unfold sleeps in *. rewrite sent_app, filter_app, Hs, Ht.
        split; [lia|]. repeat split. cbn [length]. lia.
      * exists 1. destruct (failed (status res)) eqn:Hf.
        -- rewrite (poll_failed _ _ res polls Hget Hf).
           cbn [result remaining trace fst snd]. rewrite Hrest.
           split; [lia|]. repeat split. cbn. lia.
        -- rewrite (poll_settled _ _ res polls Hget Hf Hp).
           cbn [result remaining trace fst snd]. rewrite Hrest.
           split; [lia|]. repeat split. cbn. lia.
    + exists 1. rewrite (poll_rejected _ _ e polls Hget).
      cbn [result remaining trace fst snd]. rewrite Hrest.
      split; [lia|]. repeat split. cbn. lia.
Qed.

(** A poll that is left waiting has read every answer there was. *)
Lemma pending_reads_all (agentRuntimeId : optstring) (polls : list (reply Runtime)) :
  forall cp : ControlPlane,
  onGet cp = polls ->
  result (waitForReady agentRuntimeId cp) = Pending ->
  onGet (remaining (waitForReady agentRuntimeId cp)) = [].
Proof.
  induction polls as [|r polls IH]; intros cp Hget Hres.
  - now rewrite (poll_unanswered _ _ Hget).
  - destruct r as [res|e].
    + destruct (in_progress (status res)) eqn:Hp.
      * rewrite (poll_in_progress _ _ res polls Hget Hp) in Hres |- *.
        cbn [result remaining fst snd] in Hres |- *.
        now apply (IH (answered cp) (onGet_answered cp _ _ Hget)).
      * destruct (failed (status res)) eqn:Hf.
        -- rewrite (poll_failed _ _ res polls Hget Hf) in Hres. discriminate.
        -- rewrite (poll_settled _ _ res polls Hget Hf Hp) in Hres. discriminate.
    + rewrite (poll_rejected _ _ e polls Hget) in Hres. discriminate.
Qed.

(** X2. The poll has no bound of its own: [waitForReady] is still waiting
    after the answers of the control plane exactly when every one of them
    was a response in progress (CREATING or UPDATING).  However many such
    answers there are, it has not returned and has not thrown: it has read
    them all and has one more request out than there were answers. *)
Theorem X2_poll_waits_while_in_progress (agentRuntimeId : optstring) (cp : ControlPlane) :
  (result (waitForReady agentRuntimeId cp) = Pending <->
   Forall (fun r => exists res, r = Resolves res /\ in_progress (status res) = true)
     (onGet cp))
  /\ (result (waitForReady agentRuntimeId cp) = Pending ->
      onGet (remaining (waitForReady agentRuntimeId cp)) = []
      /\ sent (trace (waitForReady agentRuntimeId cp))
         = repeat (GetAgentRuntimeCommand agentRuntimeId) (S (length (onGet cp)))).
Proof.
  split; [now apply pending_iff_all_in_progress|].
  intros Hres.
  pose proof (pending_reads_all agentRuntimeId (onGet cp) cp eq_refl Hres) as Hall.
  split; [exact Hall|].
  destruct (poll_accounts agentRuntimeId (onGet cp) cp eq_refl) as (k & _ & Hs & _ & Hk).
  rewrite Hall, Hres in Hk. cbn [length unanswered] in Hk.
  rewrite Hs. f_equal. lia.
Qed.

(** X3. Every round of the poll is one 10-second timer and one
    [GetAgentRuntime] request for the same runtime id, and nothing else is
    sent: a poll that read [k] answers has set [k] timers and sent [k]
    requests, one more of each when it is left waiting for an answer.  It
    always sends at least one request, and never more than one beyond the
    answers there are. *)
Theorem X3_one_timer_and_one_request_per_answer (agentRuntimeId : optstring)
    (cp : ControlPlane) :
  exists k,
    1 <= k <= S (length (onGet cp))
    /\ sent (trace (waitForReady agentRuntimeId cp))
       = repeat (GetAgentRuntimeCommand agentRuntimeId) k
    /\ sleeps (trace (waitForReady agentRuntimeId cp)) = repeat (Timeout 10000) k
    /\ k + length (onGet (remaining (waitForReady agentRuntimeId cp)))
       = length (onGet cp) + unanswered (result (waitForReady agentRuntimeId cp)).
Proof.
  destruct (poll_accounts agentRuntimeId (onGet cp) cp eq_refl) as (k & H1 & Hs & Ht & Hk).
  exists k. split; [|now repeat split].
  split; [exact H1|].
  destruct (result (waitForReady agentRuntimeId cp)); cbn [unanswered] in Hk; lia.
Qed.

(** What the poll returns, when it returns. *)
Lemma returned_status (agentRuntimeId : optstring) (polls : list (reply Runtime)) :
  forall (cp : ControlPlane) (s : optstring),
  onGet cp = polls ->
  result (waitForReady agentRuntimeId cp) = Returned s ->
  in_progress s = false /\ failed s = false
  /\ exists before res rest,
       polls = (map Resolves before ++ Resolves res :: rest)%list
       /\ Forall (fun r => in_progress (status r) = true) before
       /\ status res = s
       /\ onGet (remaining (waitForReady agentRuntimeId cp)) = rest.
Proof.
  induction polls as [|r polls IH]; intros cp s Hget Hres.
  - rewrite (poll_unanswered _ _ Hget) in Hres. discriminate.
  - pose proof (onGet_answered cp r polls Hget) as Hrest.
    destruct r as [res|e].
    + destruct (in_progress (status res)) eqn:Hp.
      * rewrite (poll_in_progress _ _ res polls Hget Hp) in Hres |- *.
        cbn [result remaining fst snd] in Hres |- *.
        destruct (IH (answered cp) s Hrest Hres)
          as (H1 & H2 & before & res' & rest & Hpolls & Hall & Hst & Hrem).
        split; [exact H1|]. split; [exact H2|].
        exists (res :: before), res', rest.
        split; [now rewrite Hpolls|]. split; [now constructor|].
        split; [exact Hst | exact Hrem].
      * destruct (failed (status res)) eqn:Hf.
        -- rewrite (poll_failed _ _ res polls Hget Hf) in Hres. discriminate.
        -- rewrite (poll_settled _ _ res polls Hget Hf Hp) in Hres |- *.
           cbn [result remaining fst snd] in Hres |- *.
           injection Hres as <-. split; [exact Hp|]. split; [exact Hf|].
           exists [], res, polls. repeat split; [constructor | exact Hrest].
    + rewrite (poll_rejected _ _ e polls Hget) in Hres. discriminate.
Qed.

(** X4. [waitForReady] never returns a status it polls on or fails on: a
    returned status is not CREATING, UPDATING, CREATE_FAILED or
    UPDATE_FAILED.  It is the status of the first answer that is not in
    progress, every answer before it was in progress, and the answers
    after it are left unread. *)
Theorem X4_returned_status_is_first_settled (agentRuntimeId : optstring)
    (cp : ControlPlane) (s : optstring) :
  result (waitForReady agentRuntimeId cp) = Returned s ->
  (s <> Some "CREATING" /\ s <> Some "UPDATING"
   /\ s <> Some "CREATE_FAILED" /\ s <> Some "UPDATE_FAILED")
  /\ exists before res rest,
       onGet cp = (map Resolves before ++ Resolves res :: rest)%list
       /\ Forall (fun r => in_progress (status r) = true) before
       /\ status res = s
       /\ onGet (remaining (waitForReady agentRuntimeId cp)) = rest.
Proof.
  intros Hres.
  destruct (returned_status agentRuntimeId (onGet cp) cp s eq_refl Hres)
    as (Hp & Hf & Hex).
  split; [|exact Hex].
  repeat split; intros ->; discriminate.
Qed.

Lemma X4_returned_status_witness :
  (Some "READY" <> Some "CREATING" /\ Some "READY" <> Some "UPDATING"
   /\ Some "READY" <> Some "CREATE_FAILED" /\ Some "READY" <> Some "UPDATE_FAILED")
  /\ exists before res rest,
       onGet (Scenario.plane [] [Scenario.reports "UPDATING"; Scenario.reports "READY";
                                 Scenario.reports "DELETING"])
       = (map Resolves before ++ Resolves res :: rest)%list
       /\ Forall (fun r => in_progress (status r) = true) before
       /\ status res = Some "READY"
       /\ onGet (remaining
                   (waitForReady Scenario.the_id
                      (Scenario.plane [] [Scenario.reports "UPDATING"; Scenario.reports "READY";
                                          Scenario.reports "DELETING"])))
          = rest.
Proof.
  apply (X4_returned_status_is_first_settled Scenario.the_id
           (Scenario.plane [] [Scenario.reports "UPDATING"; Scenario.reports "READY";
                               Scenario.reports "DELETING"]) (Some "READY")).
  reflexivity.
Defined.

(** *** The script as a whole *)

(** The poll returns, throws or waits; it never ends the process. *)
Lemma poll_never_exits (agentRuntimeId : optstring) (polls : list (reply Runtime)) :
  forall (cp : ControlPlane) (code : Z),
  onGet cp = polls ->
  result (waitForReady agentRuntimeId cp) <> Exited code.
Proof.
  induction polls as [|r polls IH]; intros cp code Hget.
  - now rewrite (poll_unanswered _ _ Hget).
  - destruct r as [res|e].
    + destruct (in_progress (status res)) eqn:Hp.
      * rewrite (poll_in_progress _ _ res polls Hget Hp). cbn [result fst].
        apply (IH (answered cp) code (onGet_answered cp _ _ Hget)).
      * destruct (failed (status res)) eqn:Hf.
        -- now rewrite (poll_failed _ _ res polls Hget Hf).
        -- now rewrite (poll_settled _ _ res polls Hget Hf Hp).
    + now rewrite (poll_rejected _ _ e polls Hget).
Qed.

Ltac run_body :=
  unfold deploy, findExistingAgent, bind, send_list, send_update,
    send_create, console_log, emit, ret, throw.

(** The body of the [try] block never ends the process itself. *)
Lemma deploy_never_exits (env : Env) (cp : ControlPlane) (code : Z) :
  result (deploy env cp) <> Exited code.
Proof.
  run_body.
  destruct (negb (truthy (ROLE_ARN env)) || negb (truthy (REPO_URI env)));
    [discriminate|].
  cbv beta iota.
  destruct (onList cp) as [listing|e]; cbv beta iota delta [settle]; [|discriminate].
  destruct (find_agent listing) as [existing|]; cbv beta iota.
  - destruct (onUpdate cp) as [response|e]; cbv beta iota; [|discriminate].
    pose proof (poll_never_exits (agentRuntimeId response) _ cp code eq_refl) as Hw.
    destruct (waitForReady (agentRuntimeId response) cp) as [[[?|?|c|] ?] ?];
      cbn in *; congruence.
  - destruct (onCreate cp) as [response|e]; cbv beta iota; [|discriminate].
    pose proof (poll_never_exits (agentRuntimeId response) _ cp code eq_refl) as Hw.
    destruct (waitForReady (agentRuntimeId response) cp) as [[[?|?|c|] ?] ?];
      cbn in *; congruence.
Qed.

(** X5. No error escapes the script, and every error ends it the same
    way.  Whatever the [try] block throws (the missing configuration, a
    rejected request, the failure a poll reports) is printed after the
    label of the [catch] and the process exits with status 1; the script
    exits in no other case and with no other status, and never ends by an
    uncaught exception. *)
Theorem X5_every_error_is_reported_and_exits_1 (env : Env) (cp : ControlPlane) :
  (forall e, result (main env cp) <> Threw e)
  /\ (forall code, result (main env cp) = Exited code <->
                   code = 1%Z /\ exists e, result (deploy env cp) = Threw e)
  /\ (forall e, result (deploy env cp) = Threw e ->
                trace (main env cp)
                = (trace (deploy env cp)
                     ++ [ConsoleError "Deployment failed:" e; ProcessExit 1])%list)
  /\ ((forall e, result (deploy env cp) <> Threw e) ->
      main env cp = deploy env cp).
Proof.
  pose proof (deploy_never_exits env cp) as Hex.
  unfold main, try_catch, bind, console_error, process_exit, emit.
  destruct (deploy env cp) as [[[u|e|c|] cp'] t]; cbn [result trace fst snd] in *.
  - split; [discriminate|]. split; [|split].
    + intros code. split; [discriminate|]. intros (_ & e & He). discriminate.
    + discriminate.
    + reflexivity.
  - split; [discriminate|]. split; [|split].
    + intros code. split.
      * intros Hc. injection Hc as <-. split; [reflexivity|]. now exists e.
      * intros (-> & _). reflexivity.
    + intros e' He'. now injection He' as <-.
    + intros Hno. now destruct (Hno e).
  - now destruct (Hex c).
  - split; [discriminate|]. split; [|split].
    + intros code. split; [discriminate|]. intros (_ & e & He). discriminate.
    + discriminate.
    + reflexivity.
Qed.

Lemma poll_requests_bounded (agentRuntimeId : optstring) (cp : ControlPlane) :
  exists k,
    1 <= k <= S (length (onGet cp))
    /\ sent (trace (waitForReady agentRuntimeId cp))
       = repeat (GetAgentRuntimeCommand agentRuntimeId) k.
Proof.
  destruct (poll_accounts agentRuntimeId (onGet cp) cp eq_refl) as (k & H1 & Hs & _ & Hk).
  exists k. split; [|exact Hs]. split; [exact H1|].
  destruct (result (waitForReady agentRuntimeId cp)); cbn [unanswered] in Hk; lia.
Qed.

(** X6. The requests of a run are determined, in kind and in order, by
    the answers before them.  When [ROLE_ARN] or [REPO_URI] is missing
    nothing is sent.  Otherwise the listing is sent first; when it is
    rejected nothing follows; when it is answered, exactly one request
    follows that changes the runtime: the create request when no entry
    bears the target name, the update request for the entry
    [findExistingAgent] found when one does, never both.  When that
    request is rejected nothing follows; when it is answered, one or more
    [GetAgentRuntime] requests follow and nothing else, all for the id in
    the response to that request, and at most one more than the control
    plane has answers. *)
Theorem X6_list_then_one_change_then_polls (env : Env) (cp : ControlPlane) :
  (absent (ROLE_ARN env) \/ absent (REPO_URI env) ->
   sent (trace (main env cp)) = [])
  /\ (~ absent (ROLE_ARN env) -> ~ absent (REPO_URI env) ->
      match onList cp with
      | Rejects _ => sent (trace (main env cp)) = [ListAgentRuntimesCommand]
      | Resolves listing =>
          match find_agent listing with
          | None =>
              match onCreate cp with
              | Rejects _ =>
                  sent (trace (main env cp))
                  = [ListAgentRuntimesCommand; create_request env]
              | Resolves response =>
                  exists k,
                    1 <= k <= S (length (onGet cp))
                    /\ sent (trace (main env cp))
                       = (ListAgentRuntimesCommand :: create_request env
                            :: repeat (GetAgentRuntimeCommand (agentRuntimeId response)) k)%list
              end
          | Some existing =>
              match onUpdate cp with
              | Rejects _ =>
                  sent (trace (main env cp))
                  = [ListAgentRuntimesCommand; update_request env existing]
              | Resolves response =>
                  exists k,
                    1 <= k <= S (length (onGet cp))
                    /\ sent (trace (main env cp))
                       = (ListAgentRuntimesCommand :: update_request env existing
                            :: repeat (GetAgentRuntimeCommand (agentRuntimeId response)) k)%list
              end
          end
      end).
Proof.
  split.
  - intros Habsent.
    assert (Hgate : negb (truthy (ROLE_ARN env)) || negb (truthy (REPO_URI env)) = true).
    { destruct Habsent as [H|H]; apply truthy_false in H; rewrite H;
        [reflexivity | apply orb_true_r]. }
    unfold main, try_catch, console_error, process_exit. run_body.
    rewrite Hgate. reflexivity.
  - intros Hrole Hrepo.
    assert (Hgate : negb (truthy (ROLE_ARN env)) || negb (truthy (REPO_URI env)) = false).
    { destruct (truthy (ROLE_ARN env)) eqn:H1;
        [|exfalso; apply Hrole; now apply truthy_false].
      destruct (truthy (REPO_URI env)) eqn:H2;
        [reflexivity | exfalso; apply Hrepo; now apply truthy_false]. }
    unfold main, try_catch, console_error, process_exit. run_body.
    rewrite Hgate. cbv beta iota.
    destruct (onList cp) as [listing|e]; cbv beta iota delta [settle]; [|reflexivity].
    destruct (find_agent listing) as [existing|]; cbv beta iota.
    + destruct (onUpdate cp) as [response|e]; cbv beta iota; [|reflexivity].
      destruct (poll_requests_bounded (agentRuntimeId response) cp) as (k & Hb & Hk).
      exists k. split; [exact Hb|].
      destruct (waitForReady (agentRuntimeId response) cp) as [[[?|?|?|] ?] t];
        unfold sent, trace in *; cbn [fst snd] in *;
        cbn [app flat_map]; rewrite ?flat_map_app, Hk; cbn [flat_map app];
        now rewrite ?app_nil_r.
    + destruct (onCreate cp) as [response|e]; cbv beta iota; [|reflexivity].
      destruct (poll_requests_bounded (agentRuntimeId response) cp) as (k & Hb & Hk).
      exists k. split; [exact Hb|].
      destruct (waitForReady (agentRuntimeId response) cp) as [[[?|?|?|] ?] t];
        unfold sent, trace in *; cbn [fst snd] in *;
        cbn [app flat_map]; rewrite ?flat_map_app, Hk; cbn [flat_map app];
        now rewrite ?app_nil_r.
Qed.

(** X7. When the script ends normally, the last lines it prints are the
    success lines, and the ARN they show (also in the command they give
    for invoking the agent) is the one in the response to the create or
    update request: created with the response to the create request,
    updated with the response to the update request. *)
Theorem X7_success_prints_the_arn_of_the_response (env : Env) (cp : ControlPlane) :
  result (main env cp) = Returned tt ->
  exists front done response,
    console (trace (main env cp)) = (front ++ success_lines done response)%list
    /\ ((done = "created" /\ onCreate cp = Resolves response)
        \/ (done = "updated" /\ onUpdate cp = Resolves response)).
Proof.
  unfold main, try_catch, console_error, process_exit. run_body.
  destruct (negb (truthy (ROLE_ARN env)) || negb (truthy (REPO_URI env)));
    [discriminate|].
  cbv beta iota.
  destruct (onList cp) as [listing|e]; cbv beta iota delta [settle]; [|discriminate].
  destruct (find_agent listing) as [existing|]; cbv beta iota.
  - destruct (onUpdate cp) as [response|e]; cbv beta iota; [|discriminate].
    destruct (waitForReady (agentRuntimeId response) cp) as [[[?|?|?|] ?] t];
      cbn [result trace fst snd]; try discriminate.
    intros _.
    exists (console ([ConsoleLog ("Role ARN: " ++ template (ROLE_ARN env));
                      ConsoleLog ("Repository URI: " ++ template (REPO_URI env));
                      Sent ListAgentRuntimesCommand;
                      ConsoleLog (LF ++ "Updating existing AgentCore Runtime: "
                                     ++ template (agentRuntimeId existing));
                      Sent (update_request env existing);
                      ConsoleLog "Waiting for runtime to be ready..."] ++ t)),
      "updated", response.
    split; [|right; split; reflexivity].
    unfold console. rewrite !filter_app. reflexivity.
  - destruct (onCreate cp) as [response|e]; cbv beta iota; [|discriminate].
    destruct (waitForReady (agentRuntimeId response) cp) as [[[?|?|?|] ?] t];
      cbn [result trace fst snd]; try discriminate.
    intros _.
    exists (console ([ConsoleLog ("Role ARN: " ++ template (ROLE_ARN env));
                      ConsoleLog ("Repository URI: " ++ template (REPO_URI env));
                      Sent ListAgentRuntimesCommand;
                      ConsoleLog (LF ++ "Creating AgentCore Runtime...");
                      Sent (create_request env);
                      ConsoleLog "Waiting for runtime to be ready..."] ++ t)),
      "created", response.
    split; [|left; split; reflexivity].
    unfold console. rewrite !filter_app. reflexivity.
Qed.

Lemma X7_success_witness :
  exists front done response,
    console (trace (main Scenario.env (Scenario.plane [] [Scenario.reports "READY"])))
    = (front ++ success_lines done response)%list
    /\ ((done = "created"
         /\ onCreate (Scenario.plane [] [Scenario.reports "READY"]) = Resolves response)
        \/ (done = "updated"
            /\ onUpdate (Scenario.plane [] [Scenario.reports "READY"]) = Resolves response)).
Proof.
  apply (X7_success_prints_the_arn_of_the_response Scenario.env
           (Scenario.plane [] [Scenario.reports "READY"])).
  reflexivity.
Defined.

End DeployMore.

(** ** The Express application: what the handler answers and when it invokes *)

Module ServerMore.
Import Server ServerFacts.

(** What the handler does with a message it goes on with. *)
Lemma invocations_with_message (agent : Agent) (req_body message : value) :
  userMessage req_body = Some message ->
  truthy message = true ->
  invocations agent req_body
  = match agent message with
    | Answers text => (send 200 (Some "text/plain") text, [message])
    | Fails e => (send 500 None ("Error: " ++ message_of e), [message])
    end.
Proof.
  intros Hm Ht. unfold invocations. rewrite Hm, Ht. reflexivity.
Qed.

(** X8. A request whose body yields a truthy prompt has the agent invoked
    exactly once, with the raw string body itself or with the value of
    [input.prompt]; the handler answers 200 with the agent's text as
    [text/plain] when the agent answers, and 500 with the text [Error: ]
    followed by the error's message when the agent throws. *)
Theorem X8_prompt_is_passed_to_the_agent_once (agent : Agent) (req_body : value) :
  delivered req_body ->
  yields_prompt truthy req_body = true ->
  exists message,
    message = match req_body with Str s => Str s | _ => prompt_of req_body end
    /\ snd (invocations agent req_body) = [message]
    /\ (forall text, agent message = Answers text ->
          fst (invocations agent req_body) = send 200 (Some "text/plain") text)
    /\ (forall e, agent message = Fails e ->
          fst (invocations agent req_body) = send 500 None ("Error: " ++ message_of e)).
Proof.
  intros Hd Hy. eexists. split; [reflexivity|].
  assert (Ht : truthy (match req_body with Str s => Str s | _ => prompt_of req_body end) = true).
  { destruct req_body; cbn in Hy |- *; try discriminate; exact Hy. }
  rewrite (invocations_with_message agent req_body _ (userMessage_delivered req_body Hd) Ht).
  split; [|split].
  - destruct (agent _); reflexivity.
  - intros text ->. reflexivity.
  - intros e ->. reflexivity.
Qed.

Lemma X8_prompt_witness :
  exists message,
    message = Str "What is the weather?"
    /\ snd (invocations (fun _ => Fails (Error "model unavailable"))
              (Object [("input", Object [("prompt", Str "What is the weather?")])]))
       = [message]
    /\ (forall text, (fun _ : value => Fails (Error "model unavailable")) message = Answers text ->
          fst (invocations (fun _ => Fails (Error "model unavailable"))
                 (Object [("input", Object [("prompt", Str "What is the weather?")])]))
          = send 200 (Some "text/plain") text)
    /\ (forall e, (fun _ : value => Fails (Error "model unavailable")) message = Fails e ->
          fst (invocations (fun _ => Fails (Error "model unavailable"))
                 (Object [("input", Object [("prompt", Str "What is the weather?")])]))
          = send 500 None ("Error: " ++ message_of e)).
Proof.
  apply (X8_prompt_is_passed_to_the_agent_once (fun _ => Fails (Error "model unavailable"))
           (Object [("input", Object [("prompt", Str "What is the weather?")])])).
  - exact I.
  - reflexivity.
Defined.

(** X9. For every body, set or not, and every agent: the handler invokes
    the agent at most once; it answers 200, 400 or 500; it answers 200 only
    with the text of an answer the agent gave to the one invocation; and it
    answers 400 only without having invoked the agent. *)
Theorem X9_status_follows_the_one_invocation (agent : Agent) (req_body : value) :
  length (snd (invocations agent req_body)) <= 1
  /\ (statusCode (fst (invocations agent req_body)) = 200%Z
      \/ statusCode (fst (invocations agent req_body)) = 400%Z
      \/ statusCode (fst (invocations agent req_body)) = 500%Z)
  /\ (statusCode (fst (invocations agent req_body)) = 200%Z <->
      exists message text,
        snd (invocations agent req_body) = [message]
        /\ agent message = Answers text
        /\ fst (invocations agent req_body) = send 200 (Some "text/plain") text)
  /\ (statusCode (fst (invocations agent req_body)) = 400%Z ->
      snd (invocations agent req_body) = []
      /\ body (fst (invocations agent req_body)) = "No prompt provided").
Proof.
  unfold invocations.
  destruct (userMessage req_body) as [message|].
  - destruct (truthy message); cbn [negb].
    + destruct (agent message) as [text|e] eqn:Ha; cbn.
      * split; [lia|]. split; [now left|]. split; [|discriminate].
        split; [intros _; now exists message, text|reflexivity].
      * split; [lia|]. split; [now right; right|]. split; [|discriminate].
        split; [discriminate|]. intros (m & text & Hm & Hans & _).
        injection Hm as <-. congruence.
    + cbn. split; [lia|]. split; [now right; left|]. split; [|now split].
      split; [discriminate|]. intros (m & text & Hm & _). discriminate.
  - cbn. split; [lia|]. split; [now right; right|]. split; [|discriminate].
    split; [discriminate|]. intros (m & text & Hm & _). discriminate.
Qed.

(** X10. The only string the calculator returns is the refusal to divide
    by zero: a call returns a string exactly when it is a division whose
    second operand equals zero.  Every other call carries out exactly one
    arithmetic operation, on the two operands as given, and returns its
    value. *)
Theorem X10_calculator_refuses_only_division_by_zero (op : operation) (a b : float) :
  ((exists s, fst (calculatorTool op a b) = Text s) <->
   (op = Divide /\ PrimFloat.eqb b 0%float = true))
  /\ (forall s, fst (calculatorTool op a b) = Text s -> s = "Cannot divide by zero")
  /\ (forall x, fst (calculatorTool op a b) = Num x ->
        exists done,
          calculatorTool op a b = (Num (compute done), [done])
          /\ done = match op with
                    | Add => Plus a b
                    | Subtract => Minus a b
                    | Multiply => Times a b
                    | Divide => Over a b
                    end).
Proof.
  unfold calculatorTool, number_neq_zero, perform.
  destruct op; cbn [fst];
    try (split; [split; [intros (s & Hs); discriminate | intros (Hop & _); discriminate]|];
         split; [discriminate|]; intros x _; eexists; split; reflexivity).
  destruct (PrimFloat.eqb b 0%float); cbn [negb fst].
  - split; [split; [now intros _ | intros _; now eexists]|].
    split; [intros s Hs; now injection Hs as <- | discriminate].
  - split; [split; [intros (s & Hs); discriminate | intros (_ & Hb); discriminate]|].
    split; [discriminate|]. intros x _. eexists; split; reflexivity.
Qed.

End ServerMore.

(** ** The invocation client: the gate and the exit status *)

Module InvokeAgentMore.
Import Js JsFacts InvokeAgent InvokeAgentFacts.

(** The digits [toString_hex] writes are hexadecimal digits. *)
Lemma toString_hex_digits (buffer : list byte) :
  Forall (fun c => exists n, hex_value c = Some n /\ (n < 16)%N)
    (list_ascii_of_string (toString_hex buffer)).
Proof.
  induction buffer as [|b rest IH]; [constructor|].
  cbn [toString_hex list_ascii_of_string].
  destruct (hex_byte_round_trip b) as (Hhi & Hlo & _).
  constructor; [|constructor; [|exact IH]].
  - eexists. split; [exact Hhi|]. destruct b; reflexivity.
  - eexists. split; [exact Hlo|]. destruct b; reflexivity.
Qed.

(** X11. Whatever the random source hands out, the session identifier is 34
    characters long and each of them is one of the digits 0-9 and a-f. *)
Theorem X11_session_id_is_34_hex_digits (os : entropy) :
  String.length (sessionId os) = 34
  /\ Forall (fun c => exists n, hex_value c = Some n /\ (n < 16)%N)
       (list_ascii_of_string (sessionId os)).
Proof.
  split; [apply sessionId_length | apply toString_hex_digits].
Qed.

(** X12. The client sends its request exactly when [AGENT_RUNTIME_ARN] is
    set to a string that is not empty: without it the run is the error
    line and exit status 1, and nothing is sent; with it exactly
    one request is sent, for that ARN, with the qualifier DEFAULT. *)
Theorem X12_request_needs_the_arn (env : Env) (argv : list string) (os : entropy)
    (service : Service) :
  (absent (AGENT_RUNTIME_ARN env) ->
   main env argv os service
   = [ConsoleErrorLine "AGENT_RUNTIME_ARN environment variable is required"; ProcessExit 1])
  /\ (sent (main env argv os service) = [] <-> absent (AGENT_RUNTIME_ARN env))
  /\ (~ absent (AGENT_RUNTIME_ARN env) ->
      exists c, sent (main env argv os service) = [c]
                /\ agentRuntimeArn c = AGENT_RUNTIME_ARN env
                /\ qualifier c = "DEFAULT").
Proof.
  destruct (truthy (AGENT_RUNTIME_ARN env)) eqn:Harn.
  - assert (Hnot : ~ absent (AGENT_RUNTIME_ARN env)).
    { intros H. apply truthy_false in H. congruence. }
    split; [intros H; contradiction|]. split.
    + rewrite (sent_main env argv os service Harn). split; [discriminate | contradiction].
    + intros _. exists (command env argv os).
      rewrite (sent_main env argv os service Harn). repeat split.
  - assert (Habs : absent (AGENT_RUNTIME_ARN env)) by now apply truthy_false.
    assert (Hrun : main env argv os service
                   = [ConsoleErrorLine "AGENT_RUNTIME_ARN environment variable is required";
                      ProcessExit 1])
      by (unfold main; now rewrite Harn).
    split; [intros _; exact Hrun|]. split.
    + rewrite Hrun. split; [intros _; exact Habs | reflexivity].
    + intros H. contradiction.
Qed.

(** X13. The client exits with status 1 exactly when the ARN is missing or
    the invocation is rejected, and with no other status; when the
    invocation succeeds it prints the response after its label and does
    not exit. *)
Theorem X13_exit_1_on_missing_arn_or_rejection (env : Env) (argv : list string)
    (os : entropy) (service : Service) :
  (In (ProcessExit 1) (main env argv os service) <->
   absent (AGENT_RUNTIME_ARN env)
   \/ exists e, service (command env argv os) = Rejects e)
  /\ (forall code, In (ProcessExit code) (main env argv os service) -> code = 1%Z)
  /\ (forall responseBody,
        ~ absent (AGENT_RUNTIME_ARN env) ->
        service (command env argv os) = Resolves responseBody ->
        main env argv os service
        = [Sent (command env argv os); ConsoleLog "Agent Response:" responseBody]).
Proof.
  destruct (truthy (AGENT_RUNTIME_ARN env)) eqn:Harn.
  - assert (Hnot : ~ absent (AGENT_RUNTIME_ARN env)).
    { intros H. apply truthy_false in H. congruence. }
    rewrite (main_with_arn env argv os service Harn).
    destruct (service (command env argv os)) as [responseBody|e]; cbn [In].
    + split; [|split].
      * split; [intros [H|[H|[]]]; discriminate|].
        intros [H|(e & He)]; [contradiction | discriminate].
      * intros code [H|[H|[]]]; discriminate.
      * intros b _ Hb. now injection Hb as <-.
    + split; [|split].
      * split; [intros _; right; now exists e | intros _; right; right; now left].
      * intros code [H|[H|[H|[]]]]; try discriminate. now injection H as <-.
      * intros b _ Hb. discriminate.
  - assert (Habs : absent (AGENT_RUNTIME_ARN env)) by now apply truthy_false.
    unfold main. rewrite Harn. cbn [negb In].
    split; [|split].
    + split; [intros _; now left | intros _; right; now left].
    + intros code [H|[H|[]]]; try discriminate. now injection H as <-.
    + intros b Hnot. contradiction.
Qed.

(** The empty string as the prompt argument is falsy, so the default
    question stands in for it too. *)
Example empty_prompt_argument :
  PROMPT (Scenario.argv_with EmptyString) = "What is the weather now?".
Proof. reflexivity. Qed.

End InvokeAgentMore.

(** ** The image build script *)

Module BuildImageFacts.
Import Js JsFacts BuildImage.

Lemma append_joined (a b c : string) : (a ++ b) ++ c = a ++ b ++ c.
Proof. induction a as [|x a IH]; cbn; [reflexivity | now rewrite IH]. Qed.

Lemma remove_from_slash_app (a b : string) :
  has_slash a = false ->
  remove_from_slash (a ++ b) = a ++ remove_from_slash b.
Proof.
  induction a as [|c a IH]; cbn; [reflexivity|].
  destruct (Ascii.eqb c "/"); cbn; [discriminate|].
  intros H. now rewrite IH.
Qed.

Lemma has_slash_app (a b : string) :
  has_slash (a ++ b) = has_slash a || has_slash b.
Proof.
  induction a as [|c a IH]; cbn; [reflexivity|].
  now rewrite IH, orb_assoc.
Qed.

Lemma remove_from_slash_none (s : string) : has_slash (remove_from_slash s) = false.
Proof.
  induction s as [|c s IH]; cbn; [reflexivity|].
  destruct (Ascii.eqb c "/") eqn:E; cbn; [reflexivity|]. now rewrite E.
Qed.

(** X15. The registry that [docker login] is given is the registry the
    image is pushed to: when neither the account id nor the region holds a
    slash, [${REPO_URI%%/*}] is the host
    [account.dkr.ecr.region.amazonaws.com], whatever the repository name
    is (also a name with slashes in it), and [REPO_URI] is that host, a
    slash and the repository name. *)
Theorem X15_login_registry_is_the_host_of_the_image (env : Env) (AWS_ACCOUNT_ID : string) :
  has_slash AWS_ACCOUNT_ID = false ->
  has_slash (AWS_REGION env) = false ->
  login_registry env AWS_ACCOUNT_ID
  = AWS_ACCOUNT_ID ++ ".dkr.ecr." ++ AWS_REGION env ++ ".amazonaws.com"
  /\ REPO_URI env AWS_ACCOUNT_ID
     = login_registry env AWS_ACCOUNT_ID ++ "/" ++ ECR_REPO_NAME env
  /\ has_slash (login_registry env AWS_ACCOUNT_ID) = false.
Proof.
  intros Hacc Hreg.
  assert (Hhost : login_registry env AWS_ACCOUNT_ID
                  = AWS_ACCOUNT_ID ++ ".dkr.ecr." ++ AWS_REGION env ++ ".amazonaws.com").
  { unfold login_registry, REPO_URI.
    rewrite (remove_from_slash_app AWS_ACCOUNT_ID) by exact Hacc.
    rewrite (remove_from_slash_app ".dkr.ecr.") by reflexivity.
    rewrite (remove_from_slash_app (AWS_REGION env)) by exact Hreg.
    reflexivity. }
  split; [exact Hhost|]. split.
  - rewrite Hhost. unfold REPO_URI.
    rewrite !append_joined. reflexivity.
  - apply remove_from_slash_none.
Qed.

Lemma X15_login_registry_witness :
  login_registry {| env_AWS_REGION := None; env_ECR_REPO_NAME := Some "team/agent" |}
    "123456789012"
  = "123456789012" ++ ".dkr.ecr."
      ++ AWS_REGION {| env_AWS_REGION := None; env_ECR_REPO_NAME := Some "team/agent" |}
      ++ ".amazonaws.com"
  /\ REPO_URI {| env_AWS_REGION := None; env_ECR_REPO_NAME := Some "team/agent" |}
       "123456789012"
     = login_registry {| env_AWS_REGION := None; env_ECR_REPO_NAME := Some "team/agent" |}
         "123456789012"
       ++ "/" ++ ECR_REPO_NAME {| env_AWS_REGION := None; env_ECR_REPO_NAME := Some "team/agent" |}
  /\ has_slash
       (login_registry {| env_AWS_REGION := None; env_ECR_REPO_NAME := Some "team/agent" |}
          "123456789012")
     = false.
Proof.
  apply (X15_login_registry_is_the_host_of_the_image
           {| env_AWS_REGION := None; env_ECR_REPO_NAME := Some "team/agent" |}
           "123456789012"); reflexivity.
Defined.

Example registry_of_the_defaults :
  login_registry {| env_AWS_REGION := None; env_ECR_REPO_NAME := None |} "123456789012"
  = "123456789012.dkr.ecr.us-east-1.amazonaws.com".
Proof. reflexivity. Qed.

(** An empty variable takes the default, as an unset one does. *)
Example empty_region_takes_the_default :
  AWS_REGION {| env_AWS_REGION := Some EmptyString; env_ECR_REPO_NAME := None |} = "us-east-1".
Proof. reflexivity. Qed.

(** *** Waiting for the build *)

(** The rounds of the wait that read statuses which do not settle it. *)
Lemma wait_through (before : list string) (replies : list build_reply) :
  Forall (fun s => build_settled s = false) before ->
  fst (wait_for_build (map Prints before ++ replies)) = fst (wait_for_build replies)
  /\ queries (snd (wait_for_build (map Prints before ++ replies)))
     = length before + queries (snd (wait_for_build replies))
  /\ naps (snd (wait_for_build (map Prints before ++ replies)))
     = (repeat (Sleep 15) (length before) ++ naps (snd (wait_for_build replies)))%list.
Proof.
  induction 1 as [|s before Hs _ IH]; [repeat split|].
  cbn [map app wait_for_build].
  unfold build_settled in Hs. apply orb_false_iff in Hs. destruct Hs as [-> ->].
  destruct IH as (IH1 & IH2 & IH3).
  destruct (wait_for_build (map Prints before ++ replies)) as [e actions].
  cbn [fst snd] in *. unfold queries, naps in *. cbn [filter length repeat app].
  now rewrite IH1, IH2, IH3.
Qed.

(** X16. The wait for the build ends at the first status that settles it,
    after any number of other statuses: on SUCCEEDED the loop is left and
    the script goes on; on FAILED, FAULT or STOPPED the script exits with
    status 1.  By then it has asked for the status once for each status it
    read and has slept 15 seconds after each status but the last. *)
Theorem X16_build_wait_ends_at_first_settled_status (before : list string)
    (STATUS : string) (rest : list build_reply) :
  Forall (fun s => build_settled s = false) before ->
  build_settled STATUS = true ->
  fst (wait_for_build (map Prints before ++ Prints STATUS :: rest))
  = (if String.eqb STATUS "SUCCEEDED" then Break else Exit 1)
  /\ queries (snd (wait_for_build (map Prints before ++ Prints STATUS :: rest)))
     = S (length before)
  /\ naps (snd (wait_for_build (map Prints before ++ Prints STATUS :: rest)))
     = repeat (Sleep 15) (length before).
Proof.
  intros Hbefore Hsettled.
  destruct (wait_through before (Prints STATUS :: rest) Hbefore) as (H1 & H2 & H3).
  rewrite H1, H2, H3. cbn [wait_for_build].
  unfold build_settled in Hsettled.
  destruct (String.eqb STATUS "SUCCEEDED"); cbn [orb] in Hsettled.
  - cbn. rewrite app_nil_r. repeat split. lia.
  - rewrite Hsettled. cbn. rewrite app_nil_r. repeat split. lia.
Qed.

Lemma X16_build_wait_witness :
  fst (wait_for_build (map Prints ["IN_PROGRESS"; "IN_PROGRESS"]
                         ++ Prints "FAILED" :: [Prints "SUCCEEDED"]))
  = (if String.eqb "FAILED" "SUCCEEDED" then Break else Exit 1)
  /\ queries (snd (wait_for_build (map Prints ["IN_PROGRESS"; "IN_PROGRESS"]
                                     ++ Prints "FAILED" :: [Prints "SUCCEEDED"])))
     = 3
  /\ naps (snd (wait_for_build (map Prints ["IN_PROGRESS"; "IN_PROGRESS"]
                                  ++ Prints "FAILED" :: [Prints "SUCCEEDED"])))
     = repeat (Sleep 15) 2.
Proof.
  apply (X16_build_wait_ends_at_first_settled_status ["IN_PROGRESS"; "IN_PROGRESS"]
           "FAILED" [Prints "SUCCEEDED"]).
  - repeat constructor.
  - reflexivity.
Defined.

(** X17. The wait for the build goes on for every status it does not know:
    it is still waiting after the replies exactly when each of them printed
    a status other than SUCCEEDED, FAILED, FAULT and STOPPED.  A status such
    as TIMED_OUT, or the text None, keeps the loop going. *)
Theorem X17_build_wait_goes_on_for_other_statuses (replies : list build_reply) :
  fst (wait_for_build replies) = Waiting <->
  Forall (fun r => exists s, r = Prints s /\ build_settled s = false) replies.
Proof.
  induction replies as [|r replies IH]; [split; [constructor | reflexivity]|].
  destruct r as [s|code]; cbn [wait_for_build].
  - unfold build_settled.
    destruct (String.eqb s "SUCCEEDED") eqn:Hs; cbn [orb].
    + split; [discriminate|]. intros H. inversion H as [|? ? (s' & Heq & Hset) _].
      injection Heq as <-. unfold build_settled in Hset. rewrite Hs in Hset. discriminate.
    + destruct (build_failed s) eqn:Hf.
      * split; [discriminate|]. intros H. inversion H as [|? ? (s' & Heq & Hset) _].
        injection Heq as <-. unfold build_settled in Hset. rewrite Hs, Hf in Hset.
        discriminate.
      * destruct (wait_for_build replies) as [e actions]. cbn [fst] in *.
        rewrite IH. split.
        -- intros H. constructor; [|exact H]. exists s. split; [reflexivity|].
           unfold build_settled. now rewrite Hs, Hf.
        -- intros H. now inversion H.
  - split; [discriminate|]. intros H. inversion H as [|? ? (s' & Heq & _) _]. discriminate.
Qed.

Example timed_out_build_keeps_waiting :
  fst (wait_for_build [Prints "IN_PROGRESS"; Prints "TIMED_OUT"; Prints "TIMED_OUT"]) = Waiting.
Proof. reflexivity. Qed.

End BuildImageFacts.
